(** * chess-autoracer: the board-to-FEN encoder and the click geometry

    A shallow embedding of [src/main.py].  Python values are modelled as
    follows.

    - [str] is [string]; a character is an [ascii], that is a code point
      below 256.  Among these code points the only ones [int()] accepts as
      a one-character numeral are ['0'] .. ['9'].
    - [int] is [Z]; the empty-square counter of [board_to_fen], which only
      ever starts at [0] and is incremented, is a [nat].
    - a list is a [list]; subscripting follows Python: an index [i] with
      [0 <= i < len] selects from the front, an index with
      [-len <= i < 0] selects from the back, anything else raises
      [IndexError].
    - a number is an [int] ([Z]) or a [float] (a binary64 [spec_float]);
      [calculate_centers] computes on them as Python does, each float
      operation rounded to nearest, an int too large for a float raising
      [OverflowError].  A [Point] holds the exact rationals ([Q]) two
      finite numbers stand for: what a lookup returns and a click is
      given.
    - exceptions are an explicit result type; mouse clicks are a trace of
      events. *)

From Stdlib Require Import List String Ascii ZArith QArith Lia Bool Arith.
From Stdlib Require Import DecimalString SpecFloat Lqa.
Import ListNotations.

Local Close Scope Q_scope.
Local Open Scope string_scope.

(** ** Python primitives *)

Module Py.

Inductive exn : Type :=
| IndexError
| ValueError
| OverflowError.

Inductive result (A : Type) : Type :=
| Ok (a : A)
| Raise (e : exn).

Arguments Ok {A} a.
Arguments Raise {A} e.

Definition bind {A B : Type} (m : result A) (k : A -> result B) : result B :=
  match m with
  | Ok a => k a
  | Raise e => Raise e
  end.

(** [for v in xs: body], threading the variables the body assigns. *)
Fixpoint for_each {I S : Type} (xs : list I) (body : I -> S -> result S)
    (s : S) : result S :=
  match xs with
  | [] => Ok s
  | v :: rest => bind (body v s) (for_each rest body)
  end.

(** [range(start, stop, step)] for a non-zero [step]. *)
Definition range (start stop step : Z) : list Z :=
  let len :=
    if (0 <? step)%Z then ((stop - start + step - 1) / step)%Z
    else ((start - stop - step - 1) / (- step))%Z in
  map (fun k => (start + Z.of_nat k * step)%Z) (seq 0 (Z.to_nat len)).

(** [l[i]] on a list. *)
Definition getitem {A : Type} (l : list A) (i : Z) : result A :=
  let len := Z.of_nat (List.length l) in
  let j := if (i <? 0)%Z then (len + i)%Z else i in
  if ((j <? 0) || (len <=? j))%Z then Raise IndexError
  else
    match nth_error l (Z.to_nat j) with
    | Some a => Ok a
    | None => Raise IndexError
    end.

Definition chars (s : string) : list ascii := list_ascii_of_string s.

(** [s[i]] on a string: the character at that position. *)
Definition str_getitem (s : string) (i : Z) : result ascii :=
  getitem (chars s) i.

(** [ord(c)]. *)
Definition ord (c : ascii) : Z := Z.of_nat (nat_of_ascii c).

Definition is_digit (c : ascii) : bool :=
  ((48 <=? ord c) && (ord c <=? 57))%Z.

(** [int(c)] on a one-character string. *)
Definition int (c : ascii) : result Z :=
  if is_digit c then Ok (ord c - 48)%Z else Raise ValueError.

(** [str(n)] on a non-negative integer. *)
Definition str (n : nat) : string :=
  NilZero.string_of_uint (Nat.to_uint n).

(** [s[:-1]]. *)
Fixpoint drop_last (s : string) : string :=
  match s with
  | EmptyString => EmptyString
  | String _ EmptyString => EmptyString
  | String c rest => String c (drop_last rest)
  end.

(** [s.split(sep)] for a one-character separator. *)
Fixpoint split (sep : ascii) (s : string) : list string :=
  match s with
  | EmptyString => [EmptyString]
  | String c rest =>
      if Ascii.eqb c sep then EmptyString :: split sep rest
      else
        match split sep rest with
        | [] => [String c EmptyString]
        | seg :: segs => String c seg :: segs
        end
  end.

End Py.

Import Py.

Notation "v <- m ;; k" := (Py.bind m (fun v => k))
  (at level 61, m at next level, right associativity).

(** ** class ChessEngine *)

(** The matrix the recognition stub returns, whatever the file name. *)
Definition get_board_from_screenshot (board_screenshot_filename : string)
    : list (list string) :=
  [ ["R"; "-"; "B"; "K"; "-"; "-"; "-"; "R"];
    ["-"; "P"; "P"; "-"; "P"; "-"; "-"; "-"];
    ["-"; "-"; "-"; "P"; "-"; "-"; "-"; "-"];
    ["P"; "b"; "-"; "-"; "-"; "-"; "n"; "-"];
    ["-"; "-"; "-"; "-"; "P"; "-"; "-"; "-"];
    ["p"; "p"; "B"; "-"; "-"; "-"; "-"; "-"];
    ["-"; "-"; "-"; "-"; "-"; "-"; "p"; "p"];
    ["-"; "k"; "-"; "r"; "-"; "-"; "-"; "r"] ].

(** Body of the inner loop once [square] has been read: the state is the
    pair of [fen] and [empty_counter]. *)
Definition fen_square (square : string) (st : string * nat) : string * nat :=
  let '(fen, empty_counter) := st in
  if square =? "-" then (fen, S empty_counter)
  else
    let '(fen, empty_counter) :=
      if (0 <? empty_counter)%nat then (fen ++ str empty_counter, 0)
      else (fen, empty_counter) in
    (fen ++ square, empty_counter).

(** The inner loop [for column in range(1, 9)] of one [row]. *)
Definition fen_columns (board_pieces : list (list string)) (row : Z)
    (st : string * nat) : result (string * nat) :=
  for_each (range 1 9 1)
    (fun column st =>
       line <- getitem board_pieces (8 - row)%Z ;;
       square <- getitem line (column - 1)%Z ;;
       Ok (fen_square square st))
    st.

(** The outer loop [for row in range(8, 0, -1)], starting from [fen = ""]. *)
Definition fen_rows (board_pieces : list (list string)) : result string :=
  for_each (range 8 0 (-1))
    (fun row fen =>
       st <- fen_columns board_pieces row (fen, 0) ;;
       let '(fen, empty_counter) := st in
       let fen :=
         if (0 <? empty_counter)%nat then fen ++ str empty_counter else fen in
       Ok (fen ++ "/"))
    "".

Definition board_to_fen (board_pieces : list (list string))
    (color_to_move : string) : result string :=
  fen <- fen_rows board_pieces ;;
  let fen := drop_last fen in
  let fen :=
    if color_to_move =? "black" then fen ++ " w - - 0 1"
    else fen ++ " b - - 0 1" in
  Ok fen.

(** The text of a FEN string before its first space. *)
Definition placement_field (fen : string) : string :=
  hd "" (split " " fen).

Definition initial_setup : list (list string) :=
  [ ["r"; "n"; "b"; "q"; "k"; "b"; "n"; "r"];
    ["p"; "p"; "p"; "p"; "p"; "p"; "p"; "p"];
    ["-"; "-"; "-"; "-"; "-"; "-"; "-"; "-"];
    ["-"; "-"; "-"; "-"; "-"; "-"; "-"; "-"];
    ["-"; "-"; "-"; "-"; "-"; "-"; "-"; "-"];
    ["-"; "-"; "-"; "-"; "-"; "-"; "-"; "-"];
    ["P"; "P"; "P"; "P"; "P"; "P"; "P"; "P"];
    ["R"; "N"; "B"; "Q"; "K"; "B"; "N"; "R"] ].

(** One pass of the body of [main]'s loop up to the FEN, for a tracked
    [color]: the board is turned by half a turn when the side is black. *)
Definition flip {A : Type} (rows : list (list A)) : list (list A) :=
  map (@rev A) (rev rows).

Definition main_loop_fen (color : string) : result string :=
  let board := get_board_from_screenshot "screenshot.png" in
  let board := if color =? "black" then flip board else board in
  board_to_fen board color.

(** ** class Chessboard *)

Record Point : Type := mkPoint { x : Q; y : Q }.

Definition get_initial_board_position : Point * Point * string :=
  (mkPoint 19 182, mkPoint 785 948, "black").

(** The grid of the centres in exact arithmetic, with no rounding: the
    points the formula [top-left + ((c + 0.5) W / 8, (r + 0.5) H / 8)]
    names.  The grid the program computes is [calculate_centers] below. *)
Definition exact_centers (upper_left_corner lower_right_corner : Point)
    : list (list Point) :=
  let square_width := ((x lower_right_corner - x upper_left_corner) / 8)%Q in
  let square_height := ((y lower_right_corner - y upper_left_corner) / 8)%Q in
  fold_left
    (fun centers row =>
       let row_coords :=
         fold_left
           (fun row_coords col =>
              let px := (x upper_left_corner
                         + (inject_Z col + (1 # 2)) * square_width)%Q in
              let py := (y upper_left_corner
                         + (inject_Z row + (1 # 2)) * square_height)%Q in
              (row_coords ++ [mkPoint px py])%list)
           (range 0 8 1) [] in
       (centers ++ [row_coords])%list)
    (range 0 8 1) [].

(** A Python number: an [int] or a [float] (IEEE binary64). *)
Inductive number : Type :=
| Int (z : Z)
| Float (f : spec_float).

(** Binary64 arithmetic as Python performs it, round to nearest even. *)
Module B64.

Definition add : spec_float -> spec_float -> spec_float := SFadd 53 1024.
Definition sub : spec_float -> spec_float -> spec_float := SFsub 53 1024.
Definition mul : spec_float -> spec_float -> spec_float := SFmul 53 1024.
Definition div : spec_float -> spec_float -> spec_float := SFdiv 53 1024.

(** The literals [0.5] and [8.0]. *)
Definition half : spec_float := S754_finite false 4503599627370496 (-53).
Definition eight : spec_float := S754_finite false 4503599627370496 (-49).

(** The float nearest to [n * 2^e]; Python raises [OverflowError] where
    the result would not be finite. *)
Definition rounded (n e : Z) : result spec_float :=
  match binary_normalize 53 1024 n e false with
  | S754_infinity _ => Raise OverflowError
  | f => Ok f
  end.

(** An [int] operand of a float operation is converted first. *)
Definition to_float (n : number) : result spec_float :=
  match n with
  | Int z => rounded z 0
  | Float f => Ok f
  end.

(** [a - b]: exact on two ints, a float subtraction otherwise. *)
Definition minus (a b : number) : result number :=
  match a, b with
  | Int za, Int zb => Ok (Int (za - zb))
  | _, _ =>
      fa <- to_float a ;;
      fb <- to_float b ;;
      Ok (Float (sub fa fb))
  end.

(** [a / 8]: the correctly rounded quotient on an int, a float division
    otherwise. *)
Definition over_8 (a : number) : result spec_float :=
  match a with
  | Int z => rounded z (-3)
  | Float f => Ok (div f eight)
  end.

(** [a + f] for a float [f]. *)
Definition plus (a : number) (f : spec_float) : result spec_float :=
  fa <- to_float a ;;
  Ok (add fa f).

(** The rational a finite float stands for. *)
Definition value (f : spec_float) : option Q :=
  match f with
  | S754_zero _ => Some 0%Q
  | S754_finite s m e =>
      let v :=
        if (0 <=? e)%Z then inject_Z (Z.pos m * 2 ^ e)
        else (Z.pos m # Pos.pow 2 (Z.to_pos (- e)))%Q in
      Some (if s then Qopp v else v)
  | _ => None
  end.

Definition number_value (n : number) : option Q :=
  match n with
  | Int z => Some (inject_Z z)
  | Float f => value f
  end.

End B64.

(** A point whose coordinates are Python numbers. *)
Record NumPoint : Type := mkNumPoint { nx : number; ny : number }.

Definition calculate_centers (upper_left_corner lower_right_corner : NumPoint)
    : result (list (list NumPoint)) :=
  width <- B64.minus (nx lower_right_corner) (nx upper_left_corner) ;;
  square_width <- B64.over_8 width ;;
  height <- B64.minus (ny lower_right_corner) (ny upper_left_corner) ;;
  square_height <- B64.over_8 height ;;
  for_each (range 0 8 1)
    (fun row centers =>
       row_coords <-
         for_each (range 0 8 1)
           (fun col row_coords =>
              col_half <- B64.plus (Int col) B64.half ;;
              px <- B64.plus (nx upper_left_corner)
                      (B64.mul col_half square_width) ;;
              row_half <- B64.plus (Int row) B64.half ;;
              py <- B64.plus (ny upper_left_corner)
                      (B64.mul row_half square_height) ;;
              Ok (row_coords ++ [mkNumPoint (Float px) (Float py)])%list)
           [] ;;
       Ok (centers ++ [row_coords])%list)
    [].

(** The points a grid of numbers stands for, when all of them are finite:
    what a click at such a point is given. *)
Definition point_of (p : NumPoint) : option Point :=
  match B64.number_value (nx p), B64.number_value (ny p) with
  | Some vx, Some vy => Some (mkPoint vx vy)
  | _, _ => None
  end.

Fixpoint all_some {A : Type} (l : list (option A)) : option (list A) :=
  match l with
  | [] => Some []
  | Some a :: rest =>
      match all_some rest with
      | Some rest' => Some (a :: rest')
      | None => None
      end
  | None :: _ => None
  end.

Definition points_of (grid : list (list NumPoint)) : option (list (list Point)) :=
  all_some (map (fun line => all_some (map point_of line)) grid).

(** Lines 183-185 of [main], for any corners and side: the grid handed to
    [make_move]. *)
Definition oriented_centers (upper_left_corner lower_right_corner : NumPoint)
    (color : string) : result (list (list NumPoint)) :=
  square_centers <- calculate_centers upper_left_corner lower_right_corner ;;
  Ok (if color =? "black" then flip square_centers else square_centers).

(** Two grids of points that agree as rationals. *)
Fixpoint same_points (l m : list (list Point)) : bool :=
  match l, m with
  | [], [] => true
  | a :: l', b :: m' =>
      (fix same_line (a b : list Point) : bool :=
         match a, b with
         | [], [] => true
         | p :: a', q :: b' =>
             Qeq_bool (x p) (x q) && Qeq_bool (y p) (y q) && same_line a' b'
         | _, _ => false
         end) a b
      && same_points l' m'
  | _, _ => false
  end.

(** What [make_move] does to the screen. *)
Inductive event : Type :=
| Click (px py : Q).

(** Lines 74-77: the four indices, as
    [(origin_column, origin_row, dest_column, dest_row)]. *)
Definition move_indices (move : string) : result (Z * Z * Z * Z) :=
  c0 <- str_getitem move 0 ;;
  let origin_column := (ord c0 - ord "a")%Z in
  c1 <- str_getitem move 1 ;;
  d1 <- int c1 ;;
  let origin_row := (8 - d1)%Z in
  c2 <- str_getitem move 2 ;;
  let dest_column := (ord c2 - ord "a")%Z in
  c3 <- str_getitem move 3 ;;
  d3 <- int c3 ;;
  let dest_row := (8 - d3)%Z in
  Ok (origin_column, origin_row, dest_column, dest_row).

(** Lines 80-81: the two looked-up grid entries, origin then destination. *)
Definition move_points (board_coords : list (list Point)) (move : string)
    : result (Point * Point) :=
  idx <- move_indices move ;;
  let '(origin_column, origin_row, dest_column, dest_row) := idx in
  line <- getitem board_coords origin_row ;;
  origin <- getitem line origin_column ;;
  line <- getitem board_coords dest_row ;;
  destination <- getitem line dest_column ;;
  Ok (origin, destination).

Definition make_move (board_coords : list (list Point)) (move : string)
    : result (list event) :=
  pts <- move_points board_coords move ;;
  let '(origin, destination) := pts in
  Ok [Click (x origin) (y origin); Click (x destination) (y destination)].

(** The grid [main] hands to [make_move], each number by its exact value:
    on the program's corners no operation of [calculate_centers] rounds
    ([main_square_centers_computed]). *)
Definition main_square_centers : list (list Point) :=
  let '(upper_left_corner, lower_right_corner, color) :=
    get_initial_board_position in
  let square_centers := exact_centers upper_left_corner lower_right_corner in
  if color =? "black" then flip square_centers else square_centers.

(** The FEN string of one pass of [main]'s loop. *)
Definition main_fen : result string :=
  let '(_, _, color) := get_initial_board_position in
  main_loop_fen color.

(** ** Vocabulary of the properties *)

(** A grid of eight rows of eight entries. *)
Definition is_8x8 {A : Type} (rows : list (list A)) : bool :=
  (List.length rows =? 8)%nat
  && forallb (fun line => (List.length line =? 8)%nat) rows.

Definition all_squares (p : string -> bool) (rows : list (list string)) : bool :=
  forallb (forallb p) rows.

Definition is_letter (c : ascii) : bool :=
  (((65 <=? ord c) && (ord c <=? 90)) || ((97 <=? ord c) && (ord c <=? 122)))%Z.

(** A square holding one piece letter. *)
Definition piece_letter (square : string) : bool :=
  match square with
  | String c EmptyString => is_letter c
  | _ => false
  end.

Definition piece_or_empty (square : string) : bool :=
  piece_letter square || (square =? "-").

(** What is written for a counter of empty squares when it is flushed. *)
Definition flush (pending : nat) : string :=
  if (0 <? pending)%nat then str pending else "".

(** The text of one rank, read left to right, with [pending] empty squares
    already seen and not yet written. *)
Fixpoint rank_from (pending : nat) (line : list string) : string :=
  match line with
  | [] => if (0 <? pending)%nat then str pending else ""
  | square :: rest =>
      if square =? "-" then rank_from (S pending) rest
      else (if (0 <? pending)%nat then str pending else "")
             ++ square ++ rank_from 0 rest
  end.

Definition rank_text (line : list string) : string := rank_from 0 line.

(** The ranks in the order given, joined by ['/']. *)
Definition placement (rows : list (list string)) : string :=
  String.concat "/" (map rank_text rows).

(** The reading of the rank order that starts from the matrix's last row. *)
Definition placement_last_row_first (rows : list (list string)) : string :=
  placement (rev rows).

Definition side_suffix (color_to_move : string) : string :=
  if color_to_move =? "black" then " w - - 0 1" else " b - - 0 1".

(** The ['/']-separated rank substrings of a FEN string's first field. *)
Definition rank_segments (fen : string) : list string :=
  split "/" (placement_field fen).

Definition digit_count (s : string) : nat :=
  List.length (filter is_digit (chars s)).

Definition non_digit_count (s : string) : nat :=
  List.length (filter (fun c => negb (is_digit c)) (chars s)).

Definition digit_sum (s : string) : Z :=
  fold_right (fun c acc => if is_digit c then (ord c - 48 + acc)%Z else acc)
    0%Z (chars s).

(** No character of [s] is [sep]. *)
Fixpoint free_of (sep : ascii) (s : string) : bool :=
  match s with
  | EmptyString => true
  | String c rest => negb (Ascii.eqb c sep) && free_of sep rest
  end.

(** [grid[r][c]]. *)
Definition cell {A : Type} (grid : list (list A)) (r c : Z) : result A :=
  line <- getitem grid r ;;
  getitem line c.

(** A move string that starts with the four characters given. *)
Definition four (c0 c1 c2 c3 : ascii) (rest : string) : string :=
  String c0 (String c1 (String c2 (String c3 rest))).

Definition all_empty : list (list string) := repeat (repeat "-" 8) 8.

Definition in_0_7 (i : Z) : bool := ((0 <=? i) && (i <? 8))%Z.

(** The indices a list of eight entries accepts. *)
Definition in_reach (i : Z) : bool := ((-8 <=? i) && (i <? 8))%Z.

Definition all_in_reach (oc orow dc drow : Z) : bool :=
  in_reach oc && in_reach orow && in_reach dc && in_reach drow.

Definition is_file (c : ascii) : bool := ((97 <=? ord c) && (ord c <=? 104))%Z.

Definition is_rank (c : ascii) : bool := ((49 <=? ord c) && (ord c <=? 56))%Z.

(** ** Floats that stand for small dyadic numbers *)

(** The number of binary digits of [p]. *)
Definition digits (p : positive) : Z := Zpos (digits2_pos p).

(** The float of 53 digits that stands for [+-P * 2^q]. *)
Definition canon (s : bool) (P : positive) (q : Z) : spec_float :=
  S754_finite s (Z.to_pos (Zpos P * 2 ^ (53 - digits P)))
    (q - (53 - digits P)).

Definition float_of (N q : Z) : spec_float :=
  match N with
  | Z0 => S754_zero false
  | Zpos P => canon false P q
  | Zneg P => canon true P q
  end.

(** [P] with the sign [s]. *)
Definition signed (s : bool) (P : positive) : Z :=
  if s then Zneg P else Zpos P.

(** [N * 2^q] as a rational. *)
Definition dyadic (N q : Z) : Q :=
  if (0 <=? q)%Z then inject_Z (N * 2 ^ q)
  else (N # Pos.pow 2 (Z.to_pos (- q)))%Q.


(** The numerator, in sixteenths, of the coordinate
    [a + (k + 1/2) * (b - a) / 8]. *)
Definition sixteenths (a b k : Z) : Z :=
  (16 * a + (2 * k + 1) * (b - a))%Z.

(** The value of a finite float, and [0] for the others. *)
Definition exact_value (f : spec_float) : Q :=
  match B64.value f with
  | Some v => v
  | None => 0%Q
  end.

(** The points of the grid on integer corners, by their exact values. *)
Definition centre_points (x1 y1 x2 y2 : Z) : list (list Point) :=
  map (fun row =>
         map (fun col =>
                mkPoint (exact_value (float_of (sixteenths x1 x2 col) (-4)))
                  (exact_value (float_of (sixteenths y1 y2 row) (-4))))
           [0; 1; 2; 3; 4; 5; 6; 7]%Z)
    [0; 1; 2; 3; 4; 5; 6; 7]%Z.

(** ** Vocabulary of the further properties *)

(** The characters [make_move] ends up accepting on an 8x8 grid: a file
    from ['Y'] to ['h'] (columns -8 .. 7) and a rank from ['1'] to ['9']
    (rows 7 .. -1). *)
Definition accepts_file (c : ascii) : bool :=
  ((89 <=? ord c) && (ord c <=? 104))%Z.

Definition accepts_rank (c : ascii) : bool :=
  ((49 <=? ord c) && (ord c <=? 57))%Z.

(** At least eight rows, the first eight of at least eight squares. *)
Definition covers_8x8 {A : Type} (rows : list (list A)) : bool :=
  (8 <=? List.length rows)%nat
  && forallb (fun line => (8 <=? List.length line)%nat) (firstn 8 rows).

(** The top-left eight by eight squares. *)
Definition crop {A : Type} (rows : list (list A)) : list (list A) :=
  map (firstn 8) (firstn 8 rows).

(** One turn of the outer loop of [board_to_fen], by the position [k] of
    the row it reads. *)
Definition row_step (board_pieces : list (list string)) (k : nat)
    (fen : string) : result string :=
  match nth_error board_pieces k with
  | Some line =>
      if (8 <=? List.length line)%nat
      then Ok (fen ++ rank_text (firstn 8 line) ++ "/")
      else Raise IndexError
  | None => Raise IndexError
  end.

(** Rank texts, each followed by a separator. *)
Definition joined (segs : list string) : string :=
  fold_right (fun seg acc => seg ++ "/" ++ acc) "" segs.

(** No two digits stand next to each other. *)
Fixpoint merged (s : string) : bool :=
  match s with
  | String a rest =>
      match rest with
      | String b _ => negb (is_digit a && is_digit b)
      | EmptyString => true
      end && merged rest
  | EmptyString => true
  end.

(** A piece letter or a digit from 1 to 8. *)
Definition fen_char (c : ascii) : bool := is_letter c || is_rank c.

(** The shape FEN asks of one rank: piece letters and counts from 1 to 8,
    never two counts in a row, at most eight characters and at least one. *)
Definition rank_well_formed (s : string) : bool :=
  forallb fen_char (chars s) && merged s
  && (1 <=? String.length s)%nat && (String.length s <=? 8)%nat.

(** A decoder of one rank text, for reference: the program has none. *)
Fixpoint decode_rank (s : string) : list string :=
  match s with
  | EmptyString => []
  | String c rest =>
      if is_digit c
      then (repeat "-" (Z.to_nat (ord c - 48)) ++ decode_rank rest)%list
      else String c "" :: decode_rank rest
  end.

Definition fen_to_board (fen : string) : list (list string) :=
  map decode_rank (rank_segments fen).

(** [s[::-1]]. *)
Fixpoint reversed (s : string) : string :=
  match s with
  | EmptyString => EmptyString
  | String c rest => reversed rest ++ String c ""
  end.

(** What the program does to the screen, the disk and the terminal. *)
Inductive effect : Type :=
| Capture (x0 y0 width height : Q)
| Save (filename : string)
| Print (line : string)
| Mouse (e : event).

(** [make_screenshot]: the region handed to [pyautogui.screenshot] is
    [(x1, y1, x2 - x1, y2 - y1)], and the image is saved under [filename]. *)
Definition make_screenshot (point1 point2 : Point) (filename : string)
    : list effect :=
  let x1 := x point1 in
  let y1 := y point1 in
  let x2 := x point2 in
  let y2 := y point2 in
  [Capture x1 y1 (x2 - x1)%Q (y2 - y1)%Q; Save filename].

(** A click strictly inside a captured region. *)
Definition click_inside (region : effect) (click : event) : Prop :=
  match region, click with
  | Capture x0 y0 width height, Click px py =>
      (x0 < px)%Q /\ (px < x0 + width)%Q
      /\ (y0 < py)%Q /\ (py < y0 + height)%Q
  | _, _ => False
  end.

(** Where the centre of a column or of a row lies on the screen, by the
    side played: from the left and the top for white, mirrored for black. *)
Definition column_x (upper_left_corner lower_right_corner : Point)
    (color : string) (col : Z) : Q :=
  let w := (x lower_right_corner - x upper_left_corner)%Q in
  if color =? "black"
  then (x lower_right_corner - (inject_Z col + (1 # 2)) * w / 8)%Q
  else (x upper_left_corner + (inject_Z col + (1 # 2)) * w / 8)%Q.

Definition row_y (upper_left_corner lower_right_corner : Point)
    (color : string) (row : Z) : Q :=
  let h := (y lower_right_corner - y upper_left_corner)%Q in
  if color =? "black"
  then (y lower_right_corner - (inject_Z row + (1 # 2)) * h / 8)%Q
  else (y upper_left_corner + (inject_Z row + (1 # 2)) * h / 8)%Q.

(** The chess engine behind [self.stockfish], as far as the program uses
    it: each call may change the engine. *)
Record Stockfish (engine : Type) : Type := mkStockfish {
  is_fen_valid : engine -> string -> bool * engine;
  set_fen_position : engine -> string -> engine;
  get_best_move : engine -> option string * engine;
  get_board_visual : engine -> bool -> string * engine
}.

Arguments is_fen_valid {engine} _ _ _.
Arguments set_fen_position {engine} _ _ _.
Arguments get_best_move {engine} _ _.
Arguments get_board_visual {engine} _ _ _.

(** [calculate_stockfish]: the move, the engine afterwards, and what was
    printed. *)
Definition calculate_stockfish {engine : Type} (stockfish : Stockfish engine)
    (eng : engine) (fen : string) : option string * engine * list effect :=
  let '(valid, eng) := is_fen_valid stockfish eng fen in
  if valid then
    let eng := set_fen_position stockfish eng fen in
    let '(best_move, eng) := get_best_move stockfish eng in
    (best_move, eng, [])
  else (None, eng, [Print "Invalid FEN"]).

Definition newline : string := String "010"%char "".

(** One pass of the loop of [main]: how it ends, the engine afterwards and
    the effects in order, up to the exception when one is raised. *)
Definition loop_pass {engine : Type} (stockfish : Stockfish engine)
    (upper_left_corner lower_right_corner : Point) (color : string)
    (square_centers : list (list Point)) (eng : engine)
    : result unit * engine * list effect :=
  let out := make_screenshot upper_left_corner lower_right_corner "screenshot.png" in
  let board := get_board_from_screenshot "screenshot.png" in
  let '(board, out) :=
    if color =? "black"
    then (flip board, (out ++ [Print "Starting as black, flipping board"])%list)
    else (board, out) in
  match board_to_fen board color with
  | Raise e => (Raise e, eng, out)
  | Ok fen =>
      let out := (out ++ [Print ("FEN notation: " ++ fen)])%list in
      let '(best_move, eng, printed) := calculate_stockfish stockfish eng fen in
      let out := (out ++ printed)%list in
      match best_move with
      | Some best_move =>
          let '(visual, eng) :=
            if color =? "black" then get_board_visual stockfish eng false
            else get_board_visual stockfish eng true in
          let out :=
            (out ++ [Print visual;
                     Print ("Stockfish best move for the current position: "
                            ++ best_move);
                     Print ("Making move..." ++ newline)])%list in
          match make_move square_centers best_move with
          | Raise e => (Raise e, eng, out)
          | Ok clicks =>
              (Ok tt, eng,
               (out ++ map Mouse clicks
                ++ [Print ("---------------------------------------------"
                           ++ newline)])%list)
          end
      | None => (Ok tt, eng, (out ++ [Print "Invalid FEN"])%list)
      end
  end.

Definition is_mouse (e : effect) : bool :=
  match e with
  | Mouse _ => true
  | _ => false
  end.

Definition is_invalid_notice (e : effect) : bool :=
  match e with
  | Print line => line =? "Invalid FEN"
  | _ => false
  end.

(** An engine for the examples: it accepts every FEN and always answers
    with the move given. *)
Definition fixed_engine (answer : option string) : Stockfish unit :=
  mkStockfish unit
    (fun eng _ => (true, eng))
    (fun eng _ => eng)
    (fun eng => (answer, eng))
    (fun eng _ => ("", eng)).

(** An engine that rejects every FEN. *)
Definition rejecting_engine : Stockfish unit :=
  mkStockfish unit
    (fun eng _ => (false, eng))
    (fun eng _ => eng)
    (fun eng => (None, eng))
    (fun eng _ => ("", eng)).

(** * Properties *)

(** ** Strings *)

Section StringFacts.

Lemma append_assoc (a b c : string) : (a ++ b) ++ c = a ++ (b ++ c).
Proof.
  induction a as [|ch a IH]; simpl; [reflexivity | now rewrite IH].
Qed.

Lemma append_empty_r (a : string) : a ++ "" = a.
Proof.
  induction a as [|ch a IH]; simpl; [reflexivity | now rewrite IH].
Qed.

Lemma drop_last_append_char (a : string) (ch : ascii) :
  drop_last (a ++ String ch "") = a.
Proof.
  induction a as [|c0 a IH]; simpl; [reflexivity|].
  rewrite IH. destruct a; reflexivity.
Qed.

Lemma chars_append (a b : string) : chars (a ++ b) = (chars a ++ chars b)%list.
Proof.
  unfold chars. induction a as [|ch a IH]; simpl; [reflexivity | now rewrite IH].
Qed.

End StringFacts.

(** ** The loops of [board_to_fen] against the rank-by-rank text *)

Section Encoder.

Lemma fold_fen_square (line : list string) (fen : string) (pending : nat) :
  let st := fold_left (fun st square => fen_square square st) line (fen, pending) in
  fst st ++ flush (snd st) = fen ++ rank_from pending line.
Proof.
  revert fen pending.
  induction line as [|square rest IH]; intros fen pending; simpl.
  - reflexivity.
  - destruct (square =? "-").
    + apply IH.
    + destruct (Nat.ltb_spec 0 pending) as [Hpos|Hzero].
      * rewrite IH, !append_assoc. reflexivity.
      * assert (pending = 0%nat) as -> by lia.
        rewrite IH, !append_assoc. reflexivity.
Qed.

Lemma getitem_nth {A : Type} (l : list A) (n : nat) (a : A) :
  nth_error l n = Some a -> getitem l (Z.of_nat n) = Ok a.
Proof.
  intros H. unfold getitem.
  assert (n < List.length l)%nat by (apply nth_error_Some; congruence).
  destruct (Z.ltb_spec (Z.of_nat n) 0); [lia|].
  destruct (Z.ltb_spec (Z.of_nat n) 0); [lia|].
  destruct (Z.leb_spec (Z.of_nat (List.length l)) (Z.of_nat n)); [lia|].
  simpl. now rewrite Nat2Z.id, H.
Qed.

Lemma fen_columns_line (board_pieces : list (list string)) (row : Z)
    (line : list string) (st : string * nat) :
  getitem board_pieces (8 - row)%Z = Ok line ->
  List.length line = 8%nat ->
  fen_columns board_pieces row st
  = Ok (fold_left (fun st square => fen_square square st) line st).
Proof.
  intros Hline Hlen.
  do 9 (destruct line as [|? line]; try discriminate).
  unfold fen_columns.
  change (range 1 9 1) with [1; 2; 3; 4; 5; 6; 7; 8]%Z.
  cbn [for_each]. rewrite Hline. reflexivity.
Qed.

(** One turn of the outer loop appends the text of the row it reads and a
    separator. *)
Lemma fen_row_body (board_pieces : list (list string)) (row : Z)
    (line : list string) (fen : string) :
  getitem board_pieces (8 - row)%Z = Ok line ->
  List.length line = 8%nat ->
  (st <- fen_columns board_pieces row (fen, 0) ;;
   let '(fen, empty_counter) := st in
   let fen :=
     if (0 <? empty_counter)%nat then fen ++ str empty_counter else fen in
   Ok (fen ++ "/"))
  = Ok (fen ++ rank_text line ++ "/").
Proof.
  intros Hline Hlen.
  rewrite (fen_columns_line _ _ line) by assumption.
  pose proof (fold_fen_square line fen 0) as H. cbv zeta in H.
  destruct (fold_left _ line (fen, 0)) as [fen' pending]. simpl in *.
  f_equal. rewrite <- append_assoc. f_equal.
  unfold rank_text. rewrite <- H. unfold flush. simpl.
  destruct (0 <? pending)%nat; [reflexivity | now rewrite append_empty_r].
Qed.

Lemma is_8x8_rows {A : Type} (rows : list (list A)) :
  is_8x8 rows = true ->
  exists r0 r1 r2 r3 r4 r5 r6 r7,
    rows = [r0; r1; r2; r3; r4; r5; r6; r7]
    /\ Forall (fun line => List.length line = 8%nat)
         [r0; r1; r2; r3; r4; r5; r6; r7].
Proof.
  unfold is_8x8. intros H. apply andb_true_iff in H as [Hlen Hrows].
  apply Nat.eqb_eq in Hlen.
  do 9 (destruct rows as [|? rows]; try discriminate).
  do 8 eexists. split; [reflexivity|].
  apply Forall_forall. intros line Hin.
  rewrite forallb_forall in Hrows. apply Nat.eqb_eq. now apply Hrows.
Qed.

(** The outer loop writes the rows in the order of the matrix, first row
    first, each followed by a separator. *)
Lemma fen_rows_8x8 (board_pieces : list (list string)) :
  is_8x8 board_pieces = true ->
  fen_rows board_pieces = Ok (placement board_pieces ++ "/").
Proof.
  intros H. destruct (is_8x8_rows _ H) as (r0 & r1 & r2 & r3 & r4 & r5 & r6 & r7 & -> & Hall).
  repeat match goal with
         | HF : Forall _ (_ :: _) |- _ => inversion HF; subst; clear HF
         end.
  unfold fen_rows.
  change (range 8 0 (-1)) with [8; 7; 6; 5; 4; 3; 2; 1]%Z.
  cbn [for_each].
  repeat (erewrite fen_row_body; [cbn [bind] | reflexivity | eassumption]).
  unfold placement. cbn [map String.concat].
  rewrite !append_assoc. reflexivity.
Qed.

(** [board_to_fen] on any 8x8 matrix: the rank texts of the rows in matrix
    order, joined by ['/'], followed by the side suffix. *)
Lemma board_to_fen_8x8 (board_pieces : list (list string)) (color : string) :
  is_8x8 board_pieces = true ->
  board_to_fen board_pieces color
  = Ok (placement board_pieces ++ side_suffix color).
Proof.
  intros H. unfold board_to_fen. rewrite (fen_rows_8x8 _ H). cbn [bind].
  rewrite drop_last_append_char. unfold side_suffix.
  destruct (color =? "black"); reflexivity.
Qed.

End Encoder.

(** ** Splitting a FEN string back into its rank substrings *)

Section Segments.

Lemma free_of_append (sep : ascii) (a b : string) :
  free_of sep (a ++ b) = free_of sep a && free_of sep b.
Proof.
  induction a as [|ch a IH]; simpl; [reflexivity|].
  now rewrite IH, andb_assoc.
Qed.

Lemma split_free (sep : ascii) (a : string) :
  free_of sep a = true -> split sep a = [a].
Proof.
  induction a as [|ch a IH]; simpl; intros H; [reflexivity|].
  apply andb_true_iff in H as [Hch Ha].
  apply negb_true_iff in Hch. rewrite Hch, (IH Ha). reflexivity.
Qed.

Lemma split_append_sep (sep : ascii) (a b : string) :
  free_of sep a = true ->
  split sep (a ++ String sep b) = a :: split sep b.
Proof.
  induction a as [|ch a IH]; simpl; intros H.
  - now rewrite Ascii.eqb_refl.
  - apply andb_true_iff in H as [Hch Ha].
    apply negb_true_iff in Hch. rewrite Hch, (IH Ha). reflexivity.
Qed.

Lemma split_concat (sep : ascii) (seg : string) (segs : list string) :
  forallb (free_of sep) (seg :: segs) = true ->
  split sep (String.concat (String sep "") (seg :: segs)) = seg :: segs.
Proof.
  revert seg. induction segs as [|seg' segs IH]; intros seg H.
  - simpl in *. apply split_free. now rewrite andb_true_r in H.
  - change (forallb (free_of sep) (seg :: seg' :: segs))
      with (free_of sep seg && forallb (free_of sep) (seg' :: segs)) in H.
    apply andb_true_iff in H as [Hseg Hrest].
    change (String.concat (String sep "") (seg :: seg' :: segs))
      with (seg ++ String sep (String.concat (String sep "") (seg' :: segs))).
    rewrite split_append_sep by assumption. now rewrite IH.
Qed.

Lemma free_of_concat (c : ascii) (sep : string) (segs : list string) :
  free_of c sep = true ->
  forallb (free_of c) segs = true ->
  free_of c (String.concat sep segs) = true.
Proof.
  intros Hsep. induction segs as [|seg segs IH]; intros H; [reflexivity|].
  simpl in H. apply andb_true_iff in H as [Hseg Hrest].
  destruct segs as [|seg' segs]; [exact Hseg|].
  change (String.concat sep (seg :: seg' :: segs))
    with (seg ++ sep ++ String.concat sep (seg' :: segs)).
  rewrite !free_of_append, Hseg, Hsep, (IH Hrest). reflexivity.
Qed.

Lemma placement_field_suffix (body color : string) :
  free_of " " body = true ->
  placement_field (body ++ side_suffix color) = body.
Proof.
  intros H. unfold placement_field, side_suffix.
  destruct (color =? "black");
    now rewrite (split_append_sep " " body _ H).
Qed.

(** When no rank text holds a ['/'] or a space, the rank substrings of
    the encoder's output are the rank texts of the rows, in matrix order. *)
Lemma rank_segments_8x8 (rows : list (list string)) (color : string) :
  rows <> [] ->
  forallb (free_of "/") (map rank_text rows) = true ->
  forallb (free_of " ") (map rank_text rows) = true ->
  rank_segments (placement rows ++ side_suffix color) = map rank_text rows.
Proof.
  intros Hne Hslash Hspace. unfold rank_segments.
  rewrite placement_field_suffix
    by (apply free_of_concat; [reflexivity | assumption]).
  unfold placement. destruct rows as [|line rows]; [congruence|].
  apply (split_concat "/"). exact Hslash.
Qed.

End Segments.

(** ** The characters of a rank text *)

Section RankCharacters.

Lemma digit_sum_append (a b : string) :
  digit_sum (a ++ b) = (digit_sum a + digit_sum b)%Z.
Proof.
  unfold digit_sum, chars.
  induction a as [|ch a IH]; simpl; [reflexivity|].
  rewrite IH. destruct (is_digit ch); lia.
Qed.

Lemma non_digit_count_append (a b : string) :
  non_digit_count (a ++ b) = (non_digit_count a + non_digit_count b)%nat.
Proof.
  unfold non_digit_count. now rewrite chars_append, filter_app, length_app.
Qed.

Lemma digit_count_append (a b : string) :
  digit_count (a ++ b) = (digit_count a + digit_count b)%nat.
Proof.
  unfold digit_count. now rewrite chars_append, filter_app, length_app.
Qed.

Lemma weight_digit (d : ascii) :
  is_digit d = true ->
  digit_sum (String d "") = (ord d - 48)%Z
  /\ non_digit_count (String d "") = 0%nat.
Proof.
  intros H. unfold digit_sum, non_digit_count. simpl. rewrite H. simpl.
  split; [lia | reflexivity].
Qed.

Lemma weight_other (c : ascii) :
  is_digit c = false ->
  digit_sum (String c "") = 0%Z /\ non_digit_count (String c "") = 1%nat.
Proof.
  intros H. unfold digit_sum, non_digit_count. simpl. rewrite H. simpl.
  split; reflexivity.
Qed.

(** A counter between 1 and 9 is written as the one digit of that value. *)
Lemma str_one_digit (n : nat) :
  (1 <= n <= 9)%nat ->
  exists d, str n = String d "" /\ is_digit d = true
            /\ (ord d - 48)%Z = Z.of_nat n
            /\ d <> "/"%char /\ d <> " "%char.
Proof.
  intros H.
  do 10 (destruct n as [|n]; [try lia; eexists; repeat split;
                              try reflexivity; discriminate|]).
  lia.
Qed.

Lemma letter_not_special (c : ascii) :
  is_letter c = true ->
  is_digit c = false /\ Ascii.eqb c "/" = false /\ Ascii.eqb c " " = false
  /\ (String c "" =? "-") = false.
Proof.
  destruct c as [[] [] [] [] [] [] [] []]; vm_compute; intros H;
    try discriminate H; repeat split.
Qed.

Lemma piece_letter_inv (square : string) :
  piece_letter square = true ->
  exists c, square = String c "" /\ is_letter c = true.
Proof.
  destruct square as [|c [|? ?]]; simpl; try discriminate.
  intros H. now exists c.
Qed.

Lemma piece_or_empty_inv (square : string) :
  piece_or_empty square = true ->
  square = "-" \/ exists c, square = String c "" /\ is_letter c = true.
Proof.
  unfold piece_or_empty. intros H. apply orb_true_iff in H as [H|H].
  - right. now apply piece_letter_inv.
  - left. now apply String.eqb_eq.
Qed.

(** The text of a rank of piece letters and empty squares holds neither
    ['/'] nor a space, and its digits and other characters account for
    every square. *)
Lemma rank_from_weight (line : list string) (pending : nat) :
  forallb piece_or_empty line = true ->
  (pending + List.length line <= 9)%nat ->
  let text := rank_from pending line in
  free_of "/" text = true /\ free_of " " text = true
  /\ (digit_sum text + Z.of_nat (non_digit_count text))%Z
     = Z.of_nat (pending + List.length line).
Proof.
  revert pending.
  induction line as [|square rest IH]; intros pending Hsq Hlen; cbn zeta.
  - simpl. destruct (Nat.ltb_spec 0 pending) as [Hpos|Hzero].
    + destruct (str_one_digit pending) as (d & -> & Hd & Hval & Hs & Hb);
        [simpl in Hlen; lia|].
      apply Ascii.eqb_neq in Hs, Hb.
      unfold digit_sum, non_digit_count. simpl. rewrite Hs, Hb, Hd. simpl.
      repeat split. lia.
    + assert (pending = 0%nat) as -> by lia. repeat split.
  - simpl in Hsq. apply andb_true_iff in Hsq as [Hsquare Hrest].
    simpl in Hlen.
    destruct (piece_or_empty_inv _ Hsquare) as [->|(c & -> & Hc)].
    + simpl. specialize (IH (S pending) Hrest).
      cbn zeta in IH. destruct IH as (I1 & I2 & I3); [lia|].
      repeat split; try assumption. rewrite I3. simpl. lia.
    + destruct (letter_not_special c Hc) as (Hnd & Hs & Hb & Hdash).
      cbn [rank_from]. rewrite Hdash.
      specialize (IH 0%nat Hrest). cbn zeta in IH.
      destruct IH as (I1 & I2 & I3); [lia|].
      assert (Hpiece : forall tail,
                 free_of "/" tail = true -> free_of " " tail = true ->
                 free_of "/" (String c "" ++ tail) = true
                 /\ free_of " " (String c "" ++ tail) = true).
      { intros tail T1 T2. simpl. now rewrite Hs, Hb, T1, T2. }
      destruct (Hpiece _ I1 I2) as [P1 P2].
      assert (Hw : (digit_sum (String c "" ++ rank_from 0 rest)
                    + Z.of_nat (non_digit_count (String c "" ++ rank_from 0 rest)))%Z
                   = Z.of_nat (S (List.length rest))).
      { rewrite digit_sum_append, non_digit_count_append.
        destruct (weight_other c Hnd) as [-> ->]. lia. }
      destruct (Nat.ltb_spec 0 pending) as [Hpos|Hzero].
      * destruct (str_one_digit pending) as (d & -> & Hd & Hval & Hds & Hdb);
          [lia|].
        apply Ascii.eqb_neq in Hds, Hdb.
        repeat split.
        -- simpl. simpl in P1. now rewrite Hds, P1.
        -- simpl. simpl in P2. now rewrite Hdb, P2.
        -- rewrite digit_sum_append, non_digit_count_append.
           destruct (weight_digit d Hd) as [-> ->].
           cbn [List.length]. lia.
      * assert (pending = 0%nat) as -> by lia.
        change ((if (0 <? 0)%nat then str 0 else "")
                ++ String c "" ++ rank_from 0 rest)
          with (String c "" ++ rank_from 0 rest).
        repeat split; assumption || (rewrite Hw; cbn [List.length]; lia).
Qed.

(** A rank with no empty square is written as its squares, one after the
    other. *)
Lemma rank_text_full (line : list string) :
  forallb piece_letter line = true ->
  let text := rank_text line in
  text = String.concat "" line
  /\ digit_count text = 0%nat
  /\ non_digit_count text = List.length line.
Proof.
  unfold rank_text.
  induction line as [|square rest IH]; intros Hsq; cbn zeta.
  - repeat split.
  - simpl in Hsq. apply andb_true_iff in Hsq as [Hsquare Hrest].
    destruct (piece_letter_inv _ Hsquare) as (c & -> & Hc).
    destruct (letter_not_special c Hc) as (Hnd & _ & _ & Hdash).
    cbn [rank_from]. rewrite Hdash.
    destruct (IH Hrest) as (I1 & I2 & I3).
    change ((if (0 <? 0)%nat then str 0 else "") ++ String c "" ++ rank_from 0 rest)
      with (String c "" ++ rank_from 0 rest).
    repeat split.
    + rewrite I1. destruct rest; [reflexivity|]. reflexivity.
    + rewrite digit_count_append, I2. unfold digit_count. simpl.
      now rewrite Hnd.
    + rewrite non_digit_count_append, I3. unfold non_digit_count. simpl.
      now rewrite Hnd.
Qed.

Lemma piece_letter_or_empty (line : list string) :
  forallb piece_letter line = true -> forallb piece_or_empty line = true.
Proof.
  intros H. rewrite forallb_forall in *. intros sq Hin.
  unfold piece_or_empty. now rewrite (H sq Hin).
Qed.

End RankCharacters.

(** ** The encoder on boards of piece letters and empty squares *)

Section Boards.

Lemma is_8x8_lines {A : Type} (rows : list (list A)) :
  is_8x8 rows = true ->
  List.length rows = 8%nat
  /\ forall line, In line rows -> List.length line = 8%nat.
Proof.
  unfold is_8x8. intros H. apply andb_true_iff in H as [Hlen Hrows].
  split; [now apply Nat.eqb_eq|].
  intros line Hin. rewrite forallb_forall in Hrows.
  apply Nat.eqb_eq. now apply Hrows.
Qed.

Lemma rank_segments_pieces (rows : list (list string)) (color : string) :
  is_8x8 rows = true ->
  all_squares piece_or_empty rows = true ->
  rank_segments (placement rows ++ side_suffix color) = map rank_text rows.
Proof.
  intros H8 Hsq. destruct (is_8x8_lines _ H8) as [Hlen Hlines].
  unfold all_squares in Hsq. rewrite forallb_forall in Hsq.
  assert (Hfree : forall line, In line rows ->
            free_of "/" (rank_text line) = true
            /\ free_of " " (rank_text line) = true).
  { intros line Hin.
    destruct (rank_from_weight line 0 (Hsq line Hin)) as (F1 & F2 & _).
    - rewrite (Hlines line Hin). lia.
    - now split. }
  apply rank_segments_8x8.
  - intros ->. discriminate.
  - rewrite forallb_forall. intros seg Hin.
    apply in_map_iff in Hin as (line & <- & Hin). now apply Hfree.
  - rewrite forallb_forall. intros seg Hin.
    apply in_map_iff in Hin as (line & <- & Hin). now apply Hfree.
Qed.

End Boards.

(** ** Claims about [board_to_fen] *)

(** C1: encoding the standard initial setup gives, for either side flag, a
    FEN string whose text before the first space is
    [rnbqkbnr/pppppppp/8/8/8/8/PPPPPPPP/RNBQKBNR]. *)
Theorem initial_setup_placement (color : string) :
  exists fen,
    board_to_fen initial_setup color = Ok fen
    /\ placement_field fen = "rnbqkbnr/pppppppp/8/8/8/8/PPPPPPPP/RNBQKBNR".
Proof.
  unfold board_to_fen.
  replace (fen_rows initial_setup)
    with (Ok "rnbqkbnr/pppppppp/8/8/8/8/PPPPPPPP/RNBQKBNR/")
    by (vm_compute; reflexivity).
  cbn [bind drop_last].
  destruct (color =? "black"); eexists; split; reflexivity.
Qed.

(** C2, as stated: the ranks would be written from the matrix's last row to
    its first.  On the initial setup the encoder does not do so. *)
Lemma last_row_first_fails :
  is_8x8 initial_setup = true
  /\ board_to_fen initial_setup "white"
     <> Ok (placement_last_row_first initial_setup ++ side_suffix "white").
Proof.
  split; [reflexivity | vm_compute; discriminate].
Qed.

(** C2, amended: on every 8x8 matrix the encoder writes the rank texts in
    matrix order, row 0 first and row 7 last, each row read from column 0
    to column 7, with ['/'] between ranks and none after the last. *)
Theorem board_to_fen_rank_order (r0 r1 r2 r3 r4 r5 r6 r7 : list string)
    (color : string) :
  is_8x8 [r0; r1; r2; r3; r4; r5; r6; r7] = true ->
  board_to_fen [r0; r1; r2; r3; r4; r5; r6; r7] color
  = Ok (rank_text r0 ++ "/" ++ rank_text r1 ++ "/" ++ rank_text r2 ++ "/"
        ++ rank_text r3 ++ "/" ++ rank_text r4 ++ "/" ++ rank_text r5 ++ "/"
        ++ rank_text r6 ++ "/" ++ rank_text r7 ++ side_suffix color).
Proof.
  intros H. rewrite (board_to_fen_8x8 _ _ H).
  unfold placement. cbn [map String.concat].
  rewrite !append_assoc. reflexivity.
Qed.

Lemma board_to_fen_rank_order_witness :
  is_8x8 initial_setup = true
  /\ board_to_fen initial_setup "white"
     = Ok ("rnbqkbnr" ++ "/" ++ "pppppppp" ++ "/" ++ "8" ++ "/" ++ "8" ++ "/"
           ++ "8" ++ "/" ++ "8" ++ "/" ++ "PPPPPPPP" ++ "/" ++ "RNBQKBNR"
           ++ " b - - 0 1").
Proof.
  split; [reflexivity|].
  apply (board_to_fen_rank_order
           ["r"; "n"; "b"; "q"; "k"; "b"; "n"; "r"]
           ["p"; "p"; "p"; "p"; "p"; "p"; "p"; "p"]
           ["-"; "-"; "-"; "-"; "-"; "-"; "-"; "-"]
           ["-"; "-"; "-"; "-"; "-"; "-"; "-"; "-"]
           ["-"; "-"; "-"; "-"; "-"; "-"; "-"; "-"]
           ["-"; "-"; "-"; "-"; "-"; "-"; "-"; "-"]
           ["P"; "P"; "P"; "P"; "P"; "P"; "P"; "P"]
           ["R"; "N"; "B"; "Q"; "K"; "B"; "N"; "R"] "white").
  reflexivity.
Defined.

(** C3: on every 8x8 matrix the FEN ends with [" w - - 0 1"] when the color
    flag is ["black"], and with [" b - - 0 1"] for any other flag. *)
Theorem side_to_move_suffix (rows : list (list string)) :
  is_8x8 rows = true ->
  exists body,
    board_to_fen rows "black" = Ok (body ++ " w - - 0 1")
    /\ forall color, color <> "black" ->
         board_to_fen rows color = Ok (body ++ " b - - 0 1").
Proof.
  intros H. exists (placement rows). split.
  - now rewrite (board_to_fen_8x8 _ _ H).
  - intros color Hne. rewrite (board_to_fen_8x8 _ _ H). unfold side_suffix.
    apply String.eqb_neq in Hne. now rewrite Hne.
Qed.

Lemma side_to_move_suffix_witness :
  is_8x8 (get_board_from_screenshot "screenshot.png") = true
  /\ exists body,
       board_to_fen (get_board_from_screenshot "screenshot.png") "black"
       = Ok (body ++ " w - - 0 1")
       /\ forall color, color <> "black" ->
            board_to_fen (get_board_from_screenshot "screenshot.png") color
            = Ok (body ++ " b - - 0 1").
Proof.
  split; [reflexivity|].
  apply (side_to_move_suffix (get_board_from_screenshot "screenshot.png")).
  reflexivity.
Defined.

(** C4, as stated: with tracked side ["black"] the loop of [main] would
    encode the stub matrix as [R1BK3R/1PP1P3/3P4/Pb4n1/4P3/ppB5/6pp/1k1r3r].
    It does not: the matrix is turned by half a turn first. *)
Lemma main_loop_black_not_stub_text :
  ~ exists fen,
      main_loop_fen "black" = Ok fen
      /\ placement_field fen = "R1BK3R/1PP1P3/3P4/Pb4n1/4P3/ppB5/6pp/1k1r3r".
Proof.
  intros (fen & Hfen & Hfield).
  vm_compute in Hfen. injection Hfen as <-.
  vm_compute in Hfield. discriminate.
Qed.

(** C4, amended: [board_to_fen] applied to the stub matrix as it is returned
    gives the field [R1BK3R/1PP1P3/3P4/Pb4n1/4P3/ppB5/6pp/1k1r3r] for either
    flag; the loop of [main] with tracked side ["black"] encodes the turned
    matrix, whose field is [r3r1k1/pp6/5Bpp/3P4/1n4bP/4P3/3P1PP1/R3KB1R]. *)
Theorem stub_matrix_placement :
  (forall color, exists fen,
      board_to_fen (get_board_from_screenshot "screenshot.png") color = Ok fen
      /\ placement_field fen = "R1BK3R/1PP1P3/3P4/Pb4n1/4P3/ppB5/6pp/1k1r3r")
  /\ main_loop_fen "black"
     = Ok "r3r1k1/pp6/5Bpp/3P4/1n4bP/4P3/3P1PP1/R3KB1R w - - 0 1"
  /\ main_fen = main_loop_fen "black"
  /\ placement_field "r3r1k1/pp6/5Bpp/3P4/1n4bP/4P3/3P1PP1/R3KB1R w - - 0 1"
     = "r3r1k1/pp6/5Bpp/3P4/1n4bP/4P3/3P1PP1/R3KB1R".
Proof.
  split; [|repeat split; reflexivity].
  intros color. unfold board_to_fen.
  replace (fen_rows (get_board_from_screenshot "screenshot.png"))
    with (Ok "R1BK3R/1PP1P3/3P4/Pb4n1/4P3/ppB5/6pp/1k1r3r/")
    by (vm_compute; reflexivity).
  cbn [bind drop_last].
  destruct (color =? "black"); eexists; split; reflexivity.
Qed.

(** C8: on every 8x8 matrix of piece letters with no empty square, the
    piece-placement field splits at ['/'] into 8 rank substrings, each made
    of exactly 8 non-digit characters and no digit. *)
Theorem full_board_ranks (rows : list (list string)) (color : string) :
  is_8x8 rows = true ->
  all_squares piece_letter rows = true ->
  exists fen,
    board_to_fen rows color = Ok fen
    /\ List.length (rank_segments fen) = 8%nat
    /\ Forall (fun seg => non_digit_count seg = 8%nat
                          /\ digit_count seg = 0%nat)
         (rank_segments fen).
Proof.
  intros H8 Hsq. rewrite (board_to_fen_8x8 _ _ H8).
  eexists. split; [reflexivity|].
  destruct (is_8x8_lines _ H8) as [Hlen Hlines].
  unfold all_squares in Hsq.
  rewrite rank_segments_pieces; try assumption.
  - split; [now rewrite length_map|].
    apply Forall_forall. intros seg Hin.
    apply in_map_iff in Hin as (line & <- & Hin).
    rewrite forallb_forall in Hsq.
    destruct (rank_text_full line (Hsq line Hin)) as (_ & Hd & Hn).
    now rewrite Hn, Hd, (Hlines line Hin).
  - unfold all_squares. rewrite forallb_forall in *. intros line Hin.
    apply piece_letter_or_empty. now apply Hsq.
Qed.

Lemma full_board_ranks_witness :
  is_8x8 (repeat ["k"; "Q"; "r"; "P"; "n"; "B"; "p"; "K"] 8) = true
  /\ all_squares piece_letter
       (repeat ["k"; "Q"; "r"; "P"; "n"; "B"; "p"; "K"] 8) = true
  /\ exists fen,
       board_to_fen (repeat ["k"; "Q"; "r"; "P"; "n"; "B"; "p"; "K"] 8) "white"
       = Ok fen
       /\ List.length (rank_segments fen) = 8%nat
       /\ Forall (fun seg => non_digit_count seg = 8%nat
                             /\ digit_count seg = 0%nat)
            (rank_segments fen).
Proof.
  split; [reflexivity|]. split; [reflexivity|].
  apply (full_board_ranks
           (repeat ["k"; "Q"; "r"; "P"; "n"; "B"; "p"; "K"] 8) "white");
    reflexivity.
Defined.

(** C9: on every 8x8 matrix of piece letters and empty squares, the
    piece-placement field has exactly 8 rank substrings, and in each the
    values of the digits plus the number of other characters add up to 8;
    on the all-empty matrix every rank substring is ["8"]. *)
Theorem rank_segments_account_for_eight (rows : list (list string))
    (color : string) :
  is_8x8 rows = true ->
  all_squares piece_or_empty rows = true ->
  exists fen,
    board_to_fen rows color = Ok fen
    /\ List.length (rank_segments fen) = 8%nat
    /\ Forall (fun seg =>
                 (digit_sum seg + Z.of_nat (non_digit_count seg))%Z = 8%Z)
         (rank_segments fen)
    /\ (rows = all_empty -> rank_segments fen = repeat "8" 8).
Proof.
  intros H8 Hsq. rewrite (board_to_fen_8x8 _ _ H8).
  eexists. split; [reflexivity|].
  destruct (is_8x8_lines _ H8) as [Hlen Hlines].
  rewrite rank_segments_pieces by assumption.
  split; [now rewrite length_map|]. split.
  - apply Forall_forall. intros seg Hin.
    apply in_map_iff in Hin as (line & <- & Hin).
    unfold all_squares in Hsq. rewrite forallb_forall in Hsq.
    destruct (rank_from_weight line 0 (Hsq line Hin)) as (_ & _ & Hw).
    + rewrite (Hlines line Hin). lia.
    + unfold rank_text. rewrite Hw, (Hlines line Hin). reflexivity.
  - intros ->. reflexivity.
Qed.

Lemma rank_segments_account_for_eight_witness :
  is_8x8 all_empty = true
  /\ all_squares piece_or_empty all_empty = true
  /\ exists fen,
       board_to_fen all_empty "black" = Ok fen
       /\ List.length (rank_segments fen) = 8%nat
       /\ Forall (fun seg =>
                    (digit_sum seg + Z.of_nat (non_digit_count seg))%Z = 8%Z)
            (rank_segments fen)
       /\ (all_empty = all_empty -> rank_segments fen = repeat "8" 8).
Proof.
  split; [reflexivity|]. split; [reflexivity|].
  apply (rank_segments_account_for_eight all_empty "black"); reflexivity.
Defined.

(** ** List subscripts *)

Section Subscripts.

(** An index from [-len] to [len - 1] selects an entry. *)
Lemma getitem_within {A : Type} (l : list A) (i : Z) :
  (- Z.of_nat (List.length l) <= i < Z.of_nat (List.length l))%Z ->
  exists a, In a l /\ getitem l i = Ok a.
Proof.
  intros Hi. unfold getitem.
  set (len := Z.of_nat (List.length l)) in *.
  set (j := if (i <? 0)%Z then (len + i)%Z else i).
  assert (Hj : (0 <= j < len)%Z)
    by (subst j; destruct (Z.ltb_spec i 0); lia).
  destruct (Z.ltb_spec j 0); [lia|].
  destruct (Z.leb_spec len j); [lia|]. simpl.
  destruct (nth_error l (Z.to_nat j)) as [a|] eqn:Hnth.
  - exists a. split; [eapply nth_error_In; eassumption | reflexivity].
  - apply nth_error_None in Hnth. subst len. lia.
Qed.

(** Any other index raises [IndexError]. *)
Lemma getitem_beyond {A : Type} (l : list A) (i : Z) :
  (i < - Z.of_nat (List.length l) \/ Z.of_nat (List.length l) <= i)%Z ->
  getitem l i = Raise IndexError.
Proof.
  intros Hi. unfold getitem.
  set (len := Z.of_nat (List.length l)) in *.
  destruct (Z.ltb_spec i 0).
  - destruct (Z.ltb_spec (len + i) 0); [reflexivity | lia].
  - destruct (Z.ltb_spec i 0); [lia|].
    destruct (Z.leb_spec len i); [reflexivity | lia].
Qed.

Lemma getitem_reach {A : Type} (l : list A) (i : Z) :
  List.length l = 8%nat -> in_reach i = true ->
  exists a, In a l /\ getitem l i = Ok a.
Proof.
  unfold in_reach. intros Hlen Hi. apply getitem_within. rewrite Hlen.
  apply andb_true_iff in Hi as [Hlo Hhi].
  apply Z.leb_le in Hlo. apply Z.ltb_lt in Hhi. lia.
Qed.

Lemma getitem_out_of_reach {A : Type} (l : list A) (i : Z) :
  List.length l = 8%nat -> in_reach i = false ->
  getitem l i = Raise IndexError.
Proof.
  unfold in_reach. intros Hlen Hi. apply getitem_beyond. rewrite Hlen.
  apply andb_false_iff in Hi as [Hi|Hi].
  - apply Z.leb_gt in Hi. lia.
  - apply Z.ltb_ge in Hi. lia.
Qed.

(** [grid[r][c]] on an 8x8 grid. *)
Lemma cell_reach {A : Type} (grid : list (list A)) (r c : Z) :
  is_8x8 grid = true -> in_reach r = true -> in_reach c = true ->
  exists a, cell grid r c = Ok a.
Proof.
  intros H8 Hr Hc. destruct (is_8x8_lines _ H8) as [Hlen Hlines].
  destruct (getitem_reach grid r Hlen Hr) as (line & Hin & Hline).
  destruct (getitem_reach line c (Hlines line Hin) Hc) as (a & _ & Ha).
  exists a. unfold cell. rewrite Hline. exact Ha.
Qed.

Lemma cell_out_of_reach {A : Type} (grid : list (list A)) (r c : Z) :
  is_8x8 grid = true -> in_reach r && in_reach c = false ->
  cell grid r c = Raise IndexError.
Proof.
  intros H8 H. destruct (is_8x8_lines _ H8) as [Hlen Hlines]. unfold cell.
  destruct (in_reach r) eqn:Hr.
  - destruct (getitem_reach grid r Hlen Hr) as (line & Hin & ->).
    simpl in *. now apply getitem_out_of_reach; [apply Hlines|].
  - now rewrite (getitem_out_of_reach grid r Hlen Hr).
Qed.

End Subscripts.

Lemma in_0_7_reach (i : Z) : in_0_7 i = true -> in_reach i = true.
Proof.
  unfold in_0_7, in_reach. intros H. apply andb_true_iff in H as [Hlo Hhi].
  apply Z.leb_le in Hlo. apply Z.ltb_lt in Hhi.
  apply andb_true_iff. split; [apply Z.leb_le | apply Z.ltb_lt]; lia.
Qed.

(** ** [make_move] *)

Section Moves.

Lemma move_indices_four (c0 c1 c2 c3 : ascii) (rest : string) :
  move_indices (four c0 c1 c2 c3 rest)
  = (d1 <- int c1 ;;
     d3 <- int c3 ;;
     Ok (ord c0 - 97, 8 - d1, ord c2 - 97, 8 - d3)%Z).
Proof.
  unfold move_indices, four, str_getitem.
  set (l := chars (String c0 (String c1 (String c2 (String c3 rest))))).
  assert (G0 : getitem l 0 = Ok c0)
    by (apply (getitem_nth l 0%nat); reflexivity).
  assert (G1 : getitem l 1 = Ok c1)
    by (apply (getitem_nth l 1%nat); reflexivity).
  assert (G2 : getitem l 2 = Ok c2)
    by (apply (getitem_nth l 2%nat); reflexivity).
  assert (G3 : getitem l 3 = Ok c3)
    by (apply (getitem_nth l 3%nat); reflexivity).
  rewrite G0, G1, G2, G3.
  cbn [bind]. destruct (int c1); cbn [bind]; [|reflexivity].
  destruct (int c3); reflexivity.
Qed.

Lemma make_move_cells (grid : list (list Point)) (move : string)
    (oc orow dc drow : Z) :
  move_indices move = Ok (oc, orow, dc, drow) ->
  make_move grid move
  = (origin <- cell grid orow oc ;;
     destination <- cell grid drow dc ;;
     Ok [Click (x origin) (y origin); Click (x destination) (y destination)]).
Proof.
  intros H. unfold make_move, move_points, cell. rewrite H. cbn [bind].
  destruct (getitem grid orow) as [line|]; cbn [bind]; [|reflexivity].
  destruct (getitem line oc) as [origin|]; cbn [bind]; [|reflexivity].
  destruct (getitem grid drow) as [line'|]; cbn [bind]; [|reflexivity].
  destruct (getitem line' dc); reflexivity.
Qed.

End Moves.

(** C5: [make_move] maps each file letter to the column [ord - ord 'a'] and
    each rank digit [d] to the row [8 - d]; ["e2e4"] gives origin row 6,
    column 4 and destination row 4, column 4; the grid is read at the origin
    first and at the destination second, and the clicks follow that order. *)
Theorem make_move_indices (grid : list (list Point)) (c0 c1 c2 c3 : ascii)
    (d1 d3 : Z) (origin destination : Point) :
  int c1 = Ok d1 ->
  int c3 = Ok d3 ->
  cell grid (8 - d1) (ord c0 - ord "a") = Ok origin ->
  cell grid (8 - d3) (ord c2 - ord "a") = Ok destination ->
  move_indices (four c0 c1 c2 c3 "")
  = Ok (ord c0 - ord "a", 8 - d1, ord c2 - ord "a", 8 - d3)%Z
  /\ move_points grid (four c0 c1 c2 c3 "") = Ok (origin, destination)
  /\ make_move grid (four c0 c1 c2 c3 "")
     = Ok [Click (x origin) (y origin); Click (x destination) (y destination)]
  /\ move_indices "e2e4" = Ok (4, 6, 4, 4)%Z.
Proof.
  intros H1 H3 Ho Hd.
  assert (Hidx : move_indices (four c0 c1 c2 c3 "")
                 = Ok (ord c0 - ord "a", 8 - d1, ord c2 - ord "a", 8 - d3)%Z)
    by (rewrite move_indices_four, H1, H3; reflexivity).
  split; [exact Hidx|]. split; [|split; [|reflexivity]].
  - unfold move_points. rewrite Hidx. cbn [bind]. unfold cell in Ho, Hd.
    destruct (getitem grid (8 - d1)) as [line|]; [|discriminate].
    cbn [bind] in *. rewrite Ho. cbn [bind].
    destruct (getitem grid (8 - d3)) as [line'|]; [|discriminate].
    cbn [bind] in *. now rewrite Hd.
  - rewrite (make_move_cells _ _ _ _ _ _ Hidx), Ho, Hd. reflexivity.
Qed.

Lemma make_move_indices_witness :
  int "2" = Ok 2%Z /\ int "4" = Ok 4%Z
  /\ cell main_square_centers 6 4 = Ok (mkPoint (5666 # 16) (5210 # 16))
  /\ cell main_square_centers 4 4 = Ok (mkPoint (5666 # 16) (8274 # 16))
  /\ move_indices "e2e4" = Ok (4, 6, 4, 4)%Z
  /\ move_points main_square_centers "e2e4"
     = Ok (mkPoint (5666 # 16) (5210 # 16), mkPoint (5666 # 16) (8274 # 16))
  /\ make_move main_square_centers "e2e4"
     = Ok [Click (5666 # 16) (5210 # 16); Click (5666 # 16) (8274 # 16)].
Proof.
  split; [reflexivity|]. split; [reflexivity|].
  split; [reflexivity|]. split; [reflexivity|].
  destruct (make_move_indices main_square_centers "e" "2" "e" "4" 2 4
              (mkPoint (5666 # 16) (5210 # 16)) (mkPoint (5666 # 16) (8274 # 16)))
    as (H1 & H2 & H3 & _); try reflexivity.
  split; [exact H1|]. split; [exact H2 | exact H3].
Defined.




(** C10: a move of at least four characters whose characters 0 and 2 are in
    ['a'..'h'] and whose characters 1 and 3 are in ['1'..'8'] gives four
    indices in 0..7, and on any 8x8 grid both lookups succeed. *)
Theorem well_formed_move_succeeds (grid : list (list Point))
    (c0 c1 c2 c3 : ascii) (rest : string) :
  is_file c0 = true -> is_rank c1 = true ->
  is_file c2 = true -> is_rank c3 = true ->
  is_8x8 grid = true ->
  exists oc orow dc drow origin destination,
    move_indices (four c0 c1 c2 c3 rest) = Ok (oc, orow, dc, drow)
    /\ in_0_7 oc && in_0_7 orow && in_0_7 dc && in_0_7 drow = true
    /\ cell grid orow oc = Ok origin
    /\ cell grid drow dc = Ok destination
    /\ make_move grid (four c0 c1 c2 c3 rest)
       = Ok [Click (x origin) (y origin);
             Click (x destination) (y destination)].
Proof.
  intros F0 R1 F2 R3 H8.
  assert (Hfile : forall c, is_file c = true -> in_0_7 (ord c - 97) = true).
  { intros c H. unfold is_file in H. unfold in_0_7.
    apply andb_true_iff in H as [Hlo Hhi].
    apply Z.leb_le in Hlo. apply Z.leb_le in Hhi.
    apply andb_true_iff. split; [apply Z.leb_le | apply Z.ltb_lt]; lia. }
  assert (Hrank : forall c, is_rank c = true ->
             int c = Ok (ord c - 48)%Z /\ in_0_7 (8 - (ord c - 48)) = true).
  { intros c H. unfold is_rank in H. unfold int, is_digit, in_0_7.
    apply andb_true_iff in H as [Hlo Hhi].
    apply Z.leb_le in Hlo. apply Z.leb_le in Hhi.
    replace ((48 <=? ord c)%Z && (ord c <=? 57)%Z) with true
      by (symmetry; apply andb_true_iff; split; apply Z.leb_le; lia).
    split; [reflexivity|].
    apply andb_true_iff. split; [apply Z.leb_le | apply Z.ltb_lt]; lia. }
  destruct (Hrank c1 R1) as [I1 B1]. destruct (Hrank c3 R3) as [I3 B3].
  pose proof (Hfile c0 F0) as B0. pose proof (Hfile c2 F2) as B2.
  assert (Hidx : move_indices (four c0 c1 c2 c3 rest)
                 = Ok (ord c0 - 97, 8 - (ord c1 - 48),
                       ord c2 - 97, 8 - (ord c3 - 48))%Z)
    by (rewrite move_indices_four, I1, I3; reflexivity).
  destruct (cell_reach grid _ _ H8 (in_0_7_reach _ B1) (in_0_7_reach _ B0))
    as (origin & Ho).
  destruct (cell_reach grid _ _ H8 (in_0_7_reach _ B3) (in_0_7_reach _ B2))
    as (destination & Hd).
  exists (ord c0 - 97)%Z, (8 - (ord c1 - 48))%Z,
         (ord c2 - 97)%Z, (8 - (ord c3 - 48))%Z, origin, destination.
  split; [exact Hidx|]. split; [now rewrite B0, B1, B2, B3|].
  split; [exact Ho|]. split; [exact Hd|].
  rewrite (make_move_cells _ _ _ _ _ _ Hidx), Ho, Hd. reflexivity.
Qed.

Lemma well_formed_move_succeeds_witness :
  is_file "g" = true /\ is_rank "1" = true
  /\ is_file "f" = true /\ is_rank "3" = true
  /\ is_8x8 main_square_centers = true
  /\ exists oc orow dc drow origin destination,
       move_indices (four "g" "1" "f" "3" "q") = Ok (oc, orow, dc, drow)
       /\ in_0_7 oc && in_0_7 orow && in_0_7 dc && in_0_7 drow = true
       /\ cell main_square_centers orow oc = Ok origin
       /\ cell main_square_centers drow dc = Ok destination
       /\ make_move main_square_centers (four "g" "1" "f" "3" "q")
          = Ok [Click (x origin) (y origin);
                Click (x destination) (y destination)].
Proof.
  do 5 (split; [reflexivity|]).
  apply (well_formed_move_succeeds main_square_centers "g" "1" "f" "3" "q");
    reflexivity.
Defined.

(** ** The grid in exact arithmetic *)

Section Centers.

Lemma center_offset (a w k : Q) :
  (a + (k + (1 # 2)) * (w / 8) == a + (k + (1 # 2)) * w / 8)%Q.
Proof.
  field.
Qed.

(** The two loops build the rows for [row = 0 .. 7], each with the points
    for [col = 0 .. 7]. *)
Lemma exact_centers_rows (upper_left_corner lower_right_corner : Point) :
  exact_centers upper_left_corner lower_right_corner
  = map (fun row =>
           map (fun col =>
                  mkPoint
                    (x upper_left_corner + (inject_Z col + (1 # 2))
                       * ((x lower_right_corner - x upper_left_corner) / 8))%Q
                    (y upper_left_corner + (inject_Z row + (1 # 2))
                       * ((y lower_right_corner - y upper_left_corner) / 8))%Q)
             [0; 1; 2; 3; 4; 5; 6; 7]%Z)
      [0; 1; 2; 3; 4; 5; 6; 7]%Z.
Proof.
  reflexivity.
Qed.

Lemma in_0_7_cases (i : Z) :
  in_0_7 i = true ->
  In i [0; 1; 2; 3; 4; 5; 6; 7]%Z.
Proof.
  unfold in_0_7. intros H. apply andb_true_iff in H as [Hlo Hhi].
  apply Z.leb_le in Hlo. apply Z.ltb_lt in Hhi. simpl.
  assert (i = 0 \/ i = 1 \/ i = 2 \/ i = 3 \/ i = 4 \/ i = 5 \/ i = 6
          \/ i = 7)%Z by lia.
  intuition auto.
Qed.

End Centers.

(** * Further properties *)

(** ** Which matrices [board_to_fen] encodes *)

Section EncoderDomain.

Lemma for_each_ext {I S : Type} (xs : list I) (body body' : I -> S -> result S)
    (s : S) :
  (forall v t, body v t = body' v t) ->
  for_each xs body s = for_each xs body' s.
Proof.
  intros Hext. revert s.
  induction xs as [|v rest IH]; intros s; simpl; [reflexivity|].
  rewrite Hext. destruct (body' v s); simpl; [apply IH | reflexivity].
Qed.

Lemma for_each_map {I J S : Type} (f : I -> J) (xs : list I)
    (body : J -> S -> result S) (s : S) :
  for_each (map f xs) body s = for_each xs (fun v => body (f v)) s.
Proof.
  revert s. induction xs as [|v rest IH]; intros s; simpl; [reflexivity|].
  destruct (body (f v) s); simpl; [apply IH | reflexivity].
Qed.

Lemma getitem_nat {A : Type} (l : list A) (k : nat) :
  getitem l (Z.of_nat k)
  = match nth_error l k with
    | Some a => Ok a
    | None => Raise IndexError
    end.
Proof.
  destruct (nth_error l k) as [a|] eqn:Hnth.
  - now apply getitem_nth.
  - apply getitem_beyond. apply nth_error_None in Hnth. lia.
Qed.

(** The inner loop reads the first eight squares of the row, and fails on
    a row that is missing or too short. *)
Lemma fen_columns_cases (board_pieces : list (list string)) (row : Z)
    (st : string * nat) :
  fen_columns board_pieces row st
  = match getitem board_pieces (8 - row)%Z with
    | Ok line =>
        if (8 <=? List.length line)%nat
        then Ok (fold_left (fun st square => fen_square square st)
                   (firstn 8 line) st)
        else Raise IndexError
    | Raise e => Raise e
    end.
Proof.
  unfold fen_columns.
  change (range 1 9 1) with [1; 2; 3; 4; 5; 6; 7; 8]%Z.
  destruct (getitem board_pieces (8 - row)%Z) as [line|e] eqn:Hline.
  - do 8 (destruct line as [|? line]; [reflexivity|]).
    cbn [List.length Nat.leb firstn].
    do 8 (cbn [for_each bind];
          match goal with
          | |- context [getitem ?l (?a - 1)%Z] =>
              let k := eval compute in (Z.to_nat (a - 1)) in
              change (a - 1)%Z with (Z.of_nat k);
              rewrite (getitem_nat l k); cbn [nth_error bind]
          end).
    reflexivity.
  - reflexivity.
Qed.

Lemma fen_row_cases (board_pieces : list (list string)) (k : nat)
    (fen : string) :
  (st <- fen_columns board_pieces (8 - Z.of_nat k) (fen, 0) ;;
   let '(fen, empty_counter) := st in
   let fen :=
     if (0 <? empty_counter)%nat then fen ++ str empty_counter else fen in
   Ok (fen ++ "/"))
  = row_step board_pieces k fen.
Proof.
  rewrite fen_columns_cases. unfold row_step.
  replace (8 - (8 - Z.of_nat k))%Z with (Z.of_nat k) by lia.
  rewrite getitem_nat.
  destruct (nth_error board_pieces k) as [line|]; [|reflexivity].
  destruct (8 <=? List.length line)%nat; [|reflexivity].
  cbn [bind]. generalize (firstn 8 line). intros l8.
  pose proof (fold_fen_square l8 fen 0) as H. cbv zeta in H.
  destruct (fold_left _ l8 (fen, 0)) as [fen' pending].
  simpl in H. f_equal. rewrite <- append_assoc. f_equal.
  unfold rank_text. rewrite <- H. unfold flush.
  destruct (0 <? pending)%nat; [reflexivity | now rewrite append_empty_r].
Qed.

Lemma fen_rows_steps (board_pieces : list (list string)) :
  fen_rows board_pieces = for_each (seq 0 8) (row_step board_pieces) "".
Proof.
  unfold fen_rows.
  change (range 8 0 (-1))
    with (map (fun k => (8 - Z.of_nat k)%Z) (seq 0 8)).
  rewrite for_each_map. apply for_each_ext.
  intros k fen. apply fen_row_cases.
Qed.

Lemma skipn_cons_next {A : Type} (s : nat) (l : list A) (a : A) (rest : list A) :
  skipn s l = a :: rest ->
  nth_error l s = Some a /\ skipn (S s) l = rest.
Proof.
  revert l. induction s as [|s IH]; intros l H.
  - simpl in H. subst l. now split.
  - destruct l as [|b l]; [discriminate|]. simpl in H.
    destruct (IH l H) as [Hnth Hskip]. split; [exact Hnth | exact Hskip].
Qed.

Lemma skipn_nil_none {A : Type} (s : nat) (l : list A) :
  skipn s l = [] -> nth_error l s = None.
Proof.
  revert l. induction s as [|s IH]; intros l H.
  - simpl in H. now subst l.
  - destruct l as [|b l]; [reflexivity|]. simpl in *. now apply IH.
Qed.

Lemma row_steps_from (board_pieces : list (list string)) (n s : nat)
    (fen : string) :
  for_each (seq s n) (row_step board_pieces) fen
  = if (n <=? List.length (skipn s board_pieces))%nat
       && forallb (fun line => (8 <=? List.length line)%nat)
            (firstn n (skipn s board_pieces))
    then Ok (fen ++ joined (map (fun line => rank_text (firstn 8 line))
                              (firstn n (skipn s board_pieces))))
    else Raise IndexError.
Proof.
  revert s fen. induction n as [|n IH]; intros s fen.
  - simpl. now rewrite append_empty_r.
  - cbn [seq for_each]. unfold row_step at 1.
    destruct (skipn s board_pieces) as [|line rest] eqn:Hskip.
    + now rewrite (skipn_nil_none _ _ Hskip).
    + destruct (skipn_cons_next _ _ _ _ Hskip) as [-> Hnext].
      cbn [firstn forallb List.length map joined fold_right].
      destruct (8 <=? List.length line)%nat.
      * cbn [bind]. rewrite IH, Hnext.
        change (S n <=? S (List.length rest))%nat
          with (n <=? List.length rest)%nat.
        rewrite andb_true_l.
        destruct ((n <=? List.length rest)%nat && _); [|reflexivity].
        now rewrite !append_assoc.
      * cbn [bind]. now rewrite andb_false_r.
Qed.

Lemma joined_concat (seg : string) (segs : list string) :
  joined (seg :: segs) = String.concat "/" (seg :: segs) ++ "/".
Proof.
  revert seg. induction segs as [|seg' segs IH]; intros seg.
  - reflexivity.
  - change (joined (seg :: seg' :: segs))
      with (seg ++ "/" ++ joined (seg' :: segs)).
    rewrite IH.
    change (String.concat "/" (seg :: seg' :: segs))
      with (seg ++ "/" ++ String.concat "/" (seg' :: segs)).
    now rewrite !append_assoc.
Qed.

Lemma covers_8x8_crop {A : Type} (rows : list (list A)) :
  covers_8x8 rows = true -> is_8x8 (crop rows) = true.
Proof.
  unfold covers_8x8, is_8x8, crop. intros H.
  apply andb_true_iff in H as [Hlen Hrows]. apply Nat.leb_le in Hlen.
  apply andb_true_iff. split.
  - apply Nat.eqb_eq. rewrite length_map, length_firstn. lia.
  - rewrite forallb_forall in *. intros line Hin.
    apply in_map_iff in Hin as (line' & <- & Hin).
    specialize (Hrows line' Hin). apply Nat.leb_le in Hrows.
    apply Nat.eqb_eq. rewrite length_firstn. lia.
Qed.

End EncoderDomain.

(** X1: [board_to_fen] raises [IndexError] exactly on a matrix with fewer
    than eight rows or with one of its first eight rows shorter than eight
    squares; on any other matrix it encodes the top-left 8x8 squares and
    ignores every further row and column. *)
Theorem board_to_fen_domain (board_pieces : list (list string))
    (color : string) :
  board_to_fen board_pieces color
  = if covers_8x8 board_pieces
    then Ok (placement (crop board_pieces) ++ side_suffix color)
    else Raise IndexError.
Proof.
  unfold board_to_fen.
  rewrite fen_rows_steps, row_steps_from. cbn [skipn]. fold (covers_8x8 board_pieces).
  destruct (covers_8x8 board_pieces) eqn:Hc; [|reflexivity].
  cbn [bind append]. unfold placement, crop.
  rewrite map_map.
  assert (Hne : exists seg segs,
             map (fun line => rank_text (firstn 8 line)) (firstn 8 board_pieces)
             = seg :: segs).
  { unfold covers_8x8 in Hc. apply andb_true_iff in Hc as [Hlen _].
    apply Nat.leb_le in Hlen.
    destruct board_pieces as [|line rest]; [simpl in Hlen; lia|].
    simpl. eauto. }
  destruct Hne as (seg & segs & ->).
  rewrite joined_concat, drop_last_append_char. unfold side_suffix.
  destruct (color =? "black"); reflexivity.
Qed.

(** ** Which move strings [make_move] accepts *)

Section MoveDomain.

Lemma move_indices_chars (move : string) :
  move_indices move
  = match chars move with
    | c0 :: c1 :: tail =>
        d1 <- int c1 ;;
        match tail with
        | c2 :: c3 :: _ =>
            d3 <- int c3 ;;
            Ok (ord c0 - 97, 8 - d1, ord c2 - 97, 8 - d3)%Z
        | _ => Raise IndexError
        end
    | _ => Raise IndexError
    end.
Proof.
  unfold move_indices, str_getitem.
  change 0%Z with (Z.of_nat 0). change 1%Z with (Z.of_nat 1).
  change 2%Z with (Z.of_nat 2). change 3%Z with (Z.of_nat 3).
  rewrite (getitem_nat (chars move) 0), (getitem_nat (chars move) 1),
    (getitem_nat (chars move) 2), (getitem_nat (chars move) 3).
  destruct (chars move) as [|c0 [|c1 [|c2 [|c3 tail]]]];
    cbn [nth_error bind]; try reflexivity;
    destruct (int c1); cbn [bind]; try reflexivity.
Qed.

Lemma accepts_file_reach (c : ascii) :
  accepts_file c = in_reach (ord c - 97).
Proof.
  unfold accepts_file, in_reach.
  destruct (Z.leb_spec 89 (ord c)), (Z.leb_spec (ord c) 104),
    (Z.leb_spec (-8) (ord c - 97)), (Z.ltb_spec (ord c - 97) 8);
    simpl; try reflexivity; lia.
Qed.

Lemma accepts_rank_reach (c : ascii) :
  accepts_rank c = is_digit c && in_reach (8 - (ord c - 48)).
Proof.
  unfold accepts_rank, is_digit, in_reach.
  destruct (Z.leb_spec 49 (ord c)), (Z.leb_spec (ord c) 57),
    (Z.leb_spec 48 (ord c)), (Z.leb_spec (-8) (8 - (ord c - 48))),
    (Z.ltb_spec (8 - (ord c - 48)) 8);
    simpl; try reflexivity; lia.
Qed.

(** On an 8x8 grid the two lookups succeed when all four indices are
    between -8 and 7, and raise [IndexError] otherwise. *)
Lemma make_move_8x8 (grid : list (list Point)) (move : string)
    (oc orow dc drow : Z) :
  is_8x8 grid = true ->
  move_indices move = Ok (oc, orow, dc, drow) ->
  (all_in_reach oc orow dc drow = true ->
   exists origin destination,
     cell grid orow oc = Ok origin /\ cell grid drow dc = Ok destination
     /\ make_move grid move
        = Ok [Click (x origin) (y origin);
              Click (x destination) (y destination)])
  /\ (all_in_reach oc orow dc drow = false ->
      make_move grid move = Raise IndexError).
Proof.
  intros H8 Hidx. rewrite (make_move_cells _ _ _ _ _ _ Hidx).
  unfold all_in_reach.
  destruct (in_reach oc) eqn:Hoc, (in_reach orow) eqn:Horow;
    try (rewrite (cell_out_of_reach grid orow oc H8)
           by (rewrite Hoc, Horow; reflexivity);
         simpl; split; [discriminate | reflexivity]).
  destruct (cell_reach grid orow oc H8 Horow Hoc) as (origin & Ho).
  rewrite Ho. cbn [bind].
  destruct (in_reach dc) eqn:Hdc, (in_reach drow) eqn:Hdrow;
    try (rewrite (cell_out_of_reach grid drow dc H8)
           by (rewrite Hdc, Hdrow; reflexivity);
         simpl; split; [discriminate | reflexivity]).
  destruct (cell_reach grid drow dc H8 Hdrow Hdc) as (destination & Hd).
  rewrite Hd. simpl. split; [|discriminate].
  intros _. exists origin, destination. repeat split.
Qed.

End MoveDomain.

(** X2: for moves made of characters below code point 256, on an 8x8
    grid, [make_move] clicks for a move of four or more characters exactly
    when the file characters are between ['Y'] and ['h'] and the rank
    characters between ['1'] and ['9']; every other such move raises.
    (Beyond code point 255 Python's [int] also reads other decimal digits;
    those characters are outside [ascii].) *)
Theorem make_move_accepts (grid : list (list Point)) (c0 c1 c2 c3 : ascii)
    (rest : string) :
  is_8x8 grid = true ->
  ((exists trace, make_move grid (four c0 c1 c2 c3 rest) = Ok trace)
   <-> accepts_file c0 && accepts_rank c1 && accepts_file c2
       && accepts_rank c3 = true).
Proof.
  intros H8.
  rewrite !accepts_file_reach, !accepts_rank_reach.
  pose proof (move_indices_four c0 c1 c2 c3 rest) as Hidx.
  unfold int in Hidx.
  destruct (is_digit c1) eqn:D1.
  - destruct (is_digit c3) eqn:D3.
    + cbn [bind] in Hidx.
      destruct (make_move_8x8 grid _ _ _ _ _ H8 Hidx) as [Hin Hout].
      cbn [andb].
      change (in_reach (ord c0 - 97) && in_reach (8 - (ord c1 - 48))
              && in_reach (ord c2 - 97) && in_reach (8 - (ord c3 - 48)))
        with (all_in_reach (ord c0 - 97) (8 - (ord c1 - 48))
                (ord c2 - 97) (8 - (ord c3 - 48))).
      destruct (all_in_reach (ord c0 - 97) (8 - (ord c1 - 48))
                  (ord c2 - 97) (8 - (ord c3 - 48))).
      * destruct (Hin eq_refl) as (o & d & _ & _ & Hm).
        split; [reflexivity | eauto].
      * rewrite (Hout eq_refl). split.
        -- intros [trace Ht]. discriminate.
        -- discriminate.
    + cbn [bind] in Hidx. unfold make_move, move_points. rewrite Hidx.
      cbn [bind andb]. rewrite !andb_false_r. split.
      * intros [trace Ht]. discriminate.
      * discriminate.
  - cbn [bind] in Hidx. unfold make_move, move_points. rewrite Hidx.
    cbn [bind andb]. rewrite !andb_false_r. cbn [andb]. split.
    + intros [trace Ht]. discriminate.
    + discriminate.
Qed.

Lemma make_move_accepts_witness :
  is_8x8 main_square_centers = true
  /\ ((exists trace,
         make_move main_square_centers (four "e" "7" "e" "8" "q") = Ok trace)
      <-> accepts_file "e" && accepts_rank "7" && accepts_file "e"
          && accepts_rank "8" = true).
Proof.
  split; [reflexivity|].
  apply (make_move_accepts main_square_centers "e" "7" "e" "8" "q").
  reflexivity.
Defined.

(** X3: a rank character that is not a decimal digit makes [make_move]
    raise [ValueError] before the grid is read, whatever the grid. *)
Theorem make_move_rank_not_digit (grid : list (list Point))
    (c0 c1 c2 c3 : ascii) (rest : string) :
  is_digit c1 && is_digit c3 = false ->
  make_move grid (four c0 c1 c2 c3 rest) = Raise ValueError.
Proof.
  intros H. unfold make_move, move_points.
  rewrite move_indices_four. unfold int.
  destruct (is_digit c1); [|reflexivity].
  simpl in H. rewrite H. reflexivity.
Qed.

Lemma make_move_rank_not_digit_witness :
  is_digit "2" && is_digit "x" = false
  /\ make_move [] (four "e" "2" "e" "x" "") = Raise ValueError.
Proof.
  split; [reflexivity|].
  apply (make_move_rank_not_digit [] "e" "2" "e" "x" ""). reflexivity.
Defined.

(** X4: a move of fewer than four characters never clicks: [make_move]
    raises [ValueError] when its second character is there and is not a
    digit, and [IndexError] otherwise. *)
Theorem make_move_short (grid : list (list Point)) (move : string) :
  (String.length move < 4)%nat ->
  make_move grid move
  = match chars move with
    | _ :: c1 :: _ =>
        if is_digit c1 then Raise IndexError else Raise ValueError
    | _ => Raise IndexError
    end.
Proof.
  intros Hlen. unfold make_move, move_points.
  rewrite move_indices_chars.
  destruct move as [|c0 [|c1 [|c2 [|c3 tail]]]]; simpl in Hlen; try lia;
    cbn [chars list_ascii_of_string]; try reflexivity;
    unfold int; destruct (is_digit c1); reflexivity.
Qed.

Lemma make_move_short_witness :
  (String.length "e2e" < 4)%nat
  /\ make_move main_square_centers "e2e" = Raise IndexError.
Proof.
  split; [vm_compute; lia|].
  apply (make_move_short main_square_centers "e2e"). vm_compute. lia.
Defined.

(** X5: [make_move] reads the first four characters only: a fifth
    character, such as the piece of a promotion, changes nothing. *)
Theorem make_move_ignores_tail (grid : list (list Point))
    (c0 c1 c2 c3 : ascii) (rest : string) :
  make_move grid (four c0 c1 c2 c3 rest)
  = make_move grid (four c0 c1 c2 c3 "").
Proof.
  unfold make_move, move_points. now rewrite !move_indices_four.
Qed.

(** ** The shape of a rank text, and reading it back *)

Section RankShape.

Lemma str_rank_digit (n : nat) :
  (1 <= n <= 8)%nat ->
  exists d, str n = String d "" /\ is_rank d = true /\ is_digit d = true.
Proof.
  intros H.
  do 9 (destruct n as [|n]; [try lia; eexists; repeat split|]).
  lia.
Qed.

Lemma merged_after_piece (c : ascii) (tail : string) :
  is_digit c = false -> merged (String c tail) = merged tail.
Proof.
  intros H. destruct tail as [|b tail]; [reflexivity|].
  cbn [merged]. now rewrite H.
Qed.

Lemma length_append (a b : string) :
  String.length (a ++ b) = (String.length a + String.length b)%nat.
Proof.
  induction a as [|ch a IH]; simpl; [reflexivity | now rewrite IH].
Qed.

Lemma rank_from_shape (line : list string) (pending : nat) :
  forallb piece_or_empty line = true ->
  (pending + List.length line <= 8)%nat ->
  let text := rank_from pending line in
  forallb fen_char (chars text) = true
  /\ merged text = true
  /\ (String.length text <= pending + List.length line)%nat
  /\ (0 < pending + List.length line -> 0 < String.length text)%nat.
Proof.
  revert pending.
  induction line as [|square rest IH]; intros pending Hsq Hlen; cbn zeta.
  - cbn [rank_from]. destruct (Nat.ltb_spec 0 pending) as [Hpos|Hzero].
    + destruct (str_rank_digit pending) as (d & -> & Hr & Hd);
        [simpl in Hlen; lia|].
      unfold fen_char. simpl. rewrite Hr, orb_true_r. repeat split; lia.
    + simpl. repeat split; lia.
  - simpl in Hsq. apply andb_true_iff in Hsq as [Hsquare Hrest].
    cbn [List.length] in *.
    destruct (piece_or_empty_inv _ Hsquare) as [->|(c & -> & Hc)].
    + cbn [rank_from]. change ("-" =? "-") with true. cbv iota.
      destruct (IH (S pending) Hrest) as (I1 & I2 & I3 & I4); [lia|].
      repeat split; try assumption; lia.
    + destruct (letter_not_special c Hc) as (Hnd & _ & _ & Hdash).
      cbn [rank_from]. rewrite Hdash.
      destruct (IH 0%nat Hrest) as (I1 & I2 & I3 & I4); [lia|].
      assert (Hc' : fen_char c = true) by (unfold fen_char; now rewrite Hc).
      destruct (Nat.ltb_spec 0 pending) as [Hpos|Hzero].
      * destruct (str_rank_digit pending) as (d & -> & Hr & Hd); [lia|].
        change (String d "" ++ String c "" ++ rank_from 0 rest)
          with (String d (String c (rank_from 0 rest))).
        repeat split.
        -- cbn [chars list_ascii_of_string forallb].
           unfold chars in I1. rewrite I1, Hc'. unfold fen_char.
           now rewrite Hr, orb_true_r.
        -- change (merged (String d (String c (rank_from 0 rest))))
             with (negb (is_digit d && is_digit c)
                   && merged (String c (rank_from 0 rest))).
           rewrite Hnd, andb_false_r, merged_after_piece by assumption.
           exact I2.
        -- cbn [String.length]. lia.
        -- cbn [String.length]. lia.
      * change ("" ++ String c "" ++ rank_from 0 rest)
          with (String c (rank_from 0 rest)).
        repeat split.
        -- cbn [chars list_ascii_of_string forallb].
           unfold chars in I1. now rewrite I1, Hc'.
        -- now rewrite merged_after_piece.
        -- cbn [String.length]. lia.
        -- cbn [String.length]. lia.
Qed.

Lemma repeat_shift {A : Type} (a : A) (n : nat) (l : list A) :
  (repeat a n ++ a :: l = a :: repeat a n ++ l)%list.
Proof.
  induction n as [|n IH]; simpl; [reflexivity | now rewrite IH].
Qed.

(** Decoding the text of a rank gives the pending empty squares and then
    the squares of the rank. *)
Lemma decode_rank_from (line : list string) (pending : nat) :
  forallb piece_or_empty line = true ->
  (pending + List.length line <= 9)%nat ->
  decode_rank (rank_from pending line) = (repeat "-" pending ++ line)%list.
Proof.
  revert pending.
  induction line as [|square rest IH]; intros pending Hsq Hlen.
  - cbn [rank_from]. rewrite app_nil_r.
    destruct (Nat.ltb_spec 0 pending) as [Hpos|Hzero].
    + destruct (str_one_digit pending) as (d & -> & Hd & Hval & _);
        [simpl in Hlen; lia|].
      cbn [decode_rank]. rewrite Hd, Hval, Nat2Z.id. now rewrite app_nil_r.
    + assert (pending = 0%nat) as -> by lia. reflexivity.
  - simpl in Hsq. apply andb_true_iff in Hsq as [Hsquare Hrest].
    cbn [List.length] in Hlen.
    destruct (piece_or_empty_inv _ Hsquare) as [->|(c & -> & Hc)].
    + cbn [rank_from]. change ("-" =? "-") with true. cbv iota.
      rewrite IH by (assumption || lia).
      cbn [repeat]. now rewrite repeat_shift.
    + destruct (letter_not_special c Hc) as (Hnd & _ & _ & Hdash).
      cbn [rank_from]. rewrite Hdash.
      destruct (Nat.ltb_spec 0 pending) as [Hpos|Hzero].
      * destruct (str_one_digit pending) as (d & -> & Hd & Hval & _); [lia|].
        change (String d "" ++ String c "" ++ rank_from 0 rest)
          with (String d (String c (rank_from 0 rest))).
        cbn [decode_rank]. rewrite Hd, Hnd, Hval, Nat2Z.id.
        now rewrite IH by (assumption || lia).
      * assert (pending = 0%nat) as -> by lia.
        change ("" ++ String c "" ++ rank_from 0 rest)
          with (String c (rank_from 0 rest)).
        cbn [decode_rank]. rewrite Hnd.
        now rewrite IH by (assumption || lia).
Qed.

Lemma decode_rank_texts (rows : list (list string)) :
  is_8x8 rows = true ->
  all_squares piece_or_empty rows = true ->
  map decode_rank (map rank_text rows) = rows.
Proof.
  intros H8 Hsq. destruct (is_8x8_lines _ H8) as [_ Hlines].
  unfold all_squares in Hsq. rewrite forallb_forall in Hsq.
  rewrite map_map. rewrite <- (map_id rows) at 2.
  apply map_ext_in. intros line Hin. unfold rank_text.
  rewrite decode_rank_from; [reflexivity | now apply Hsq|].
  rewrite (Hlines line Hin). lia.
Qed.

Lemma append_inv_head (a b c : string) : a ++ b = a ++ c -> b = c.
Proof.
  induction a as [|ch a IH]; simpl; intros H; [exact H|].
  injection H as H. now apply IH.
Qed.

End RankShape.

(** X6: on an 8x8 matrix of piece letters and empty squares, every rank
    substring of the output has the shape FEN asks for: only piece letters
    and digits from 1 to 8, never two digits in a row, between one and
    eight characters. *)
Theorem rank_segments_well_formed (rows : list (list string)) (color : string) :
  is_8x8 rows = true ->
  all_squares piece_or_empty rows = true ->
  exists fen,
    board_to_fen rows color = Ok fen
    /\ Forall (fun seg => rank_well_formed seg = true) (rank_segments fen).
Proof.
  intros H8 Hsq. rewrite (board_to_fen_8x8 _ _ H8).
  eexists. split; [reflexivity|].
  rewrite rank_segments_pieces by assumption.
  destruct (is_8x8_lines _ H8) as [_ Hlines].
  unfold all_squares in Hsq. rewrite forallb_forall in Hsq.
  apply Forall_forall. intros seg Hin.
  apply in_map_iff in Hin as (line & <- & Hin).
  destruct (rank_from_shape line 0 (Hsq line Hin)) as (S1 & S2 & S3 & S4).
  - rewrite (Hlines line Hin). lia.
  - rewrite (Hlines line Hin) in S3, S4. unfold rank_well_formed, rank_text.
    rewrite S1, S2. cbn [andb].
    apply andb_true_iff. split; apply Nat.leb_le; [apply S4|]; lia.
Qed.

Lemma rank_segments_well_formed_witness :
  is_8x8 (get_board_from_screenshot "screenshot.png") = true
  /\ all_squares piece_or_empty (get_board_from_screenshot "screenshot.png")
     = true
  /\ exists fen,
       board_to_fen (get_board_from_screenshot "screenshot.png") "black"
       = Ok fen
       /\ Forall (fun seg => rank_well_formed seg = true) (rank_segments fen).
Proof.
  split; [reflexivity|]. split; [reflexivity|].
  apply (rank_segments_well_formed
           (get_board_from_screenshot "screenshot.png") "black");
    reflexivity.
Defined.

(** X7: the encoding loses nothing: two 8x8 matrices of piece letters and
    empty squares with the same output are the same matrix, and the two
    color flags agree on being ["black"]. *)
Theorem board_to_fen_injective (rows rows' : list (list string))
    (color color' : string) :
  is_8x8 rows = true -> all_squares piece_or_empty rows = true ->
  is_8x8 rows' = true -> all_squares piece_or_empty rows' = true ->
  board_to_fen rows color = board_to_fen rows' color' ->
  rows = rows' /\ (color =? "black") = (color' =? "black").
Proof.
  intros H8 Hsq H8' Hsq' Heq.
  rewrite (board_to_fen_8x8 _ _ H8), (board_to_fen_8x8 _ _ H8') in Heq.
  injection Heq as Heq.
  assert (Hseg : map rank_text rows = map rank_text rows').
  { rewrite <- (rank_segments_pieces rows color H8 Hsq).
    rewrite <- (rank_segments_pieces rows' color' H8' Hsq').
    now rewrite Heq. }
  assert (Hrows : rows = rows').
  { rewrite <- (decode_rank_texts rows H8 Hsq).
    rewrite <- (decode_rank_texts rows' H8' Hsq').
    now rewrite Hseg. }
  split; [exact Hrows|]. subst rows'.
  apply append_inv_head in Heq. unfold side_suffix in Heq.
  destruct (color =? "black"), (color' =? "black");
    reflexivity || discriminate.
Qed.

Lemma board_to_fen_injective_witness :
  is_8x8 initial_setup = true
  /\ all_squares piece_or_empty initial_setup = true
  /\ board_to_fen initial_setup "white" = board_to_fen initial_setup "w"
  /\ initial_setup = initial_setup
  /\ ("white" =? "black") = ("w" =? "black").
Proof.
  split; [reflexivity|]. split; [reflexivity|]. split; [reflexivity|].
  apply (board_to_fen_injective initial_setup initial_setup "white" "w");
    reflexivity.
Defined.

(** X8: reading the output back rank by rank, a digit standing for that
    many empty squares, gives the matrix that was encoded. *)
Theorem fen_to_board_round_trip (rows : list (list string)) (color : string) :
  is_8x8 rows = true ->
  all_squares piece_or_empty rows = true ->
  exists fen,
    board_to_fen rows color = Ok fen /\ fen_to_board fen = rows.
Proof.
  intros H8 Hsq. rewrite (board_to_fen_8x8 _ _ H8).
  eexists. split; [reflexivity|].
  unfold fen_to_board. rewrite rank_segments_pieces by assumption.
  now apply decode_rank_texts.
Qed.

Lemma fen_to_board_round_trip_witness :
  is_8x8 (get_board_from_screenshot "screenshot.png") = true
  /\ all_squares piece_or_empty (get_board_from_screenshot "screenshot.png")
     = true
  /\ exists fen,
       board_to_fen (get_board_from_screenshot "screenshot.png") "white"
       = Ok fen
       /\ fen_to_board fen = get_board_from_screenshot "screenshot.png".
Proof.
  split; [reflexivity|]. split; [reflexivity|].
  apply (fen_to_board_round_trip
           (get_board_from_screenshot "screenshot.png") "white");
    reflexivity.
Defined.

(** ** Turning a grid by half a turn *)

Section Flips.

Lemma getitem_map {A B : Type} (f : A -> B) (l : list A) (i : Z) :
  getitem (map f l) i
  = match getitem l i with
    | Ok a => Ok (f a)
    | Raise e => Raise e
    end.
Proof.
  unfold getitem. rewrite length_map, nth_error_map.
  destruct (_ || _); [reflexivity|].
  destruct (nth_error l _); reflexivity.
Qed.

Lemma in_0_7_nat (i : Z) :
  in_0_7 i = true -> exists k, i = Z.of_nat k /\ (k < 8)%nat.
Proof.
  unfold in_0_7. intros H. apply andb_true_iff in H as [Hlo Hhi].
  apply Z.leb_le in Hlo. apply Z.ltb_lt in Hhi.
  exists (Z.to_nat i). split; lia.
Qed.

Lemma in_0_7_mirror (i : Z) : in_0_7 i = true -> in_0_7 (7 - i) = true.
Proof.
  unfold in_0_7. intros H. apply andb_true_iff in H as [Hlo Hhi].
  apply Z.leb_le in Hlo. apply Z.ltb_lt in Hhi.
  apply andb_true_iff. split; [apply Z.leb_le | apply Z.ltb_lt]; lia.
Qed.

Lemma getitem_rev_8 {A : Type} (l : list A) (i : Z) :
  List.length l = 8%nat -> in_0_7 i = true ->
  getitem (rev l) i = getitem l (7 - i).
Proof.
  intros Hlen Hi. destruct (in_0_7_nat i Hi) as (k & -> & Hk).
  replace (7 - Z.of_nat k)%Z with (Z.of_nat (7 - k)) by lia.
  rewrite !getitem_nat, nth_error_rev, Hlen.
  destruct (Nat.ltb_spec k 8); [|lia].
  now replace (8 - S k)%nat with (7 - k)%nat by lia.
Qed.

Lemma cell_of_flip {A : Type} (grid : list (list A)) (r c : Z) :
  is_8x8 grid = true -> in_0_7 r = true -> in_0_7 c = true ->
  cell (flip grid) r c = cell grid (7 - r) (7 - c).
Proof.
  intros H8 Hr Hc. destruct (is_8x8_lines _ H8) as [Hlen Hlines].
  unfold cell, flip.
  rewrite getitem_map, (getitem_rev_8 grid r Hlen Hr).
  destruct (getitem_reach grid (7 - r) Hlen
              (in_0_7_reach _ (in_0_7_mirror r Hr))) as (line & Hin & ->).
  cbn [bind]. apply getitem_rev_8; [now apply Hlines | exact Hc].
Qed.

Lemma flip_is_8x8 {A : Type} (grid : list (list A)) :
  is_8x8 grid = true -> is_8x8 (flip grid) = true.
Proof.
  intros H8. destruct (is_8x8_lines _ H8) as [Hlen Hlines].
  unfold is_8x8, flip. apply andb_true_iff. split.
  - apply Nat.eqb_eq. now rewrite length_map, length_rev.
  - rewrite forallb_forall. intros line Hin.
    apply in_map_iff in Hin as (line' & <- & Hin).
    apply in_rev in Hin. apply Nat.eqb_eq.
    rewrite length_rev. now apply Hlines.
Qed.

End Flips.

(** X9: on an 8x8 grid, the entry [r][c] of the grid reversed in both axes
    is the entry [7 - r][7 - c] of the grid, and reversing twice gives the
    grid back. *)
Theorem flip_cell (grid : list (list Point)) (r c : Z) :
  is_8x8 grid = true -> in_0_7 r = true -> in_0_7 c = true ->
  cell (flip grid) r c = cell grid (7 - r) (7 - c)
  /\ flip (flip grid) = grid.
Proof.
  intros H8 Hr Hc. split; [now apply cell_of_flip|].
  unfold flip. rewrite <- map_rev, rev_involutive, map_map.
  rewrite <- (map_id grid) at 2. apply map_ext. apply rev_involutive.
Qed.

Lemma flip_cell_witness :
  is_8x8 main_square_centers = true /\ in_0_7 6 = true /\ in_0_7 4 = true
  /\ cell (flip main_square_centers) 6 4 = cell main_square_centers (7 - 6) (7 - 4)
  /\ flip (flip main_square_centers) = main_square_centers.
Proof.
  do 3 (split; [reflexivity|]).
  apply (flip_cell main_square_centers 6 4); reflexivity.
Defined.


(** ** The encoding of a board turned by half a turn *)

Section Reversal.

Lemma reversed_append (a b : string) :
  reversed (a ++ b) = reversed b ++ reversed a.
Proof.
  induction a as [|ch a IH]; simpl.
  - now rewrite append_empty_r.
  - now rewrite IH, append_assoc.
Qed.

Lemma reversed_flush (n : nat) :
  (n <= 9)%nat -> reversed (flush n) = flush n.
Proof.
  intros Hn. unfold flush. destruct (Nat.ltb_spec 0 n); [|reflexivity].
  destruct (str_one_digit n) as (d & -> & _); [lia | reflexivity].
Qed.

Lemma free_of_reversed (sep : ascii) (s : string) :
  free_of sep (reversed s) = free_of sep s.
Proof.
  induction s as [|ch s IH]; simpl; [reflexivity|].
  rewrite free_of_append, IH. simpl. rewrite andb_true_r. apply andb_comm.
Qed.

Lemma rank_from_empties (pending n : nat) :
  rank_from pending (repeat "-" n) = flush (pending + n).
Proof.
  revert pending. induction n as [|n IH]; intros pending.
  - now rewrite Nat.add_0_r.
  - cbn [repeat rank_from]. change ("-" =? "-") with true. cbv iota.
    rewrite IH. f_equal. lia.
Qed.

(** A piece cuts the text of a rank in two. *)
Lemma rank_from_piece (pending : nat) (line : list string) (square : string)
    (tail : list string) :
  (square =? "-") = false ->
  rank_from pending (line ++ square :: tail)
  = rank_from pending line ++ square ++ rank_from 0 tail.
Proof.
  intros Hsq. revert pending.
  induction line as [|sq line IH]; intros pending.
  - cbn [app rank_from]. now rewrite Hsq.
  - cbn [app rank_from]. destruct (sq =? "-").
    + apply IH.
    + now rewrite IH, !append_assoc.
Qed.

Lemma rank_from_rev (line : list string) (p q : nat) :
  forallb piece_or_empty line = true ->
  (p + List.length line + q <= 9)%nat ->
  rank_from q (rev line ++ repeat "-" p)
  = reversed (rank_from p (line ++ repeat "-" q)).
Proof.
  revert p q.
  induction line as [|square rest IH]; intros p q Hsq Hlen.
  - cbn [rev app List.length] in *.
    rewrite !rank_from_empties, reversed_flush by lia. f_equal. lia.
  - simpl in Hsq. apply andb_true_iff in Hsq as [Hsquare Hrest].
    cbn [List.length] in Hlen. cbn [rev]. rewrite <- app_assoc. cbn [app].
    destruct (piece_or_empty_inv _ Hsquare) as [->|(c & -> & Hc)].
    + change ("-" :: repeat "-" p) with (repeat "-" (S p)).
      rewrite IH by (assumption || lia).
      cbn [rank_from]. now change ("-" =? "-") with true.
    + destruct (letter_not_special c Hc) as (_ & _ & _ & Hdash).
      rewrite rank_from_piece by assumption.
      rewrite rank_from_empties. cbn [Nat.add].
      cbn [rank_from]. rewrite Hdash. fold (flush p).
      rewrite !reversed_append, reversed_flush by lia.
      rewrite <- (IH 0%nat q) by (assumption || lia).
      cbn [repeat]. rewrite app_nil_r, append_assoc. reflexivity.
Qed.

Lemma rank_text_rev (line : list string) :
  forallb piece_or_empty line = true ->
  (List.length line <= 9)%nat ->
  rank_text (rev line) = reversed (rank_text line).
Proof.
  intros Hsq Hlen. unfold rank_text.
  pose proof (rank_from_rev line 0 0 Hsq) as H.
  cbn [repeat] in H. rewrite !app_nil_r in H. apply H. lia.
Qed.

Lemma concat_snoc (sep : string) (segs : list string) (seg last : string) :
  String.concat sep ((seg :: segs) ++ [last])
  = String.concat sep (seg :: segs) ++ sep ++ last.
Proof.
  revert seg. induction segs as [|seg' segs IH]; intros seg.
  - reflexivity.
  - change (String.concat sep ((seg :: seg' :: segs) ++ [last]))
      with (seg ++ sep ++ String.concat sep ((seg' :: segs) ++ [last])).
    rewrite IH.
    change (String.concat sep (seg :: seg' :: segs))
      with (seg ++ sep ++ String.concat sep (seg' :: segs)).
    now rewrite !append_assoc.
Qed.

Lemma reversed_concat (segs : list string) :
  reversed (String.concat "/" segs)
  = String.concat "/" (map reversed (rev segs)).
Proof.
  induction segs as [|seg segs IH]; [reflexivity|].
  destruct segs as [|seg' segs].
  - reflexivity.
  - change (String.concat "/" (seg :: seg' :: segs))
      with (seg ++ "/" ++ String.concat "/" (seg' :: segs)).
    rewrite !reversed_append, IH.
    change (rev (seg :: seg' :: segs)) with (rev (seg' :: segs) ++ [seg])%list.
    rewrite map_app. cbn [map].
    destruct (map reversed (rev (seg' :: segs))) as [|first others] eqn:Hmap.
    + apply (f_equal (@List.length string)) in Hmap.
      rewrite length_map, length_rev in Hmap. discriminate.
    + rewrite concat_snoc, append_assoc. reflexivity.
Qed.

Lemma placement_flip (rows : list (list string)) :
  is_8x8 rows = true ->
  all_squares piece_or_empty rows = true ->
  placement (flip rows) = reversed (placement rows).
Proof.
  intros H8 Hsq. destruct (is_8x8_lines _ H8) as [_ Hlines].
  unfold all_squares in Hsq. rewrite forallb_forall in Hsq.
  unfold placement, flip. rewrite reversed_concat, <- map_rev, !map_map.
  f_equal. apply map_ext_in. intros line Hin. apply in_rev in Hin.
  apply rank_text_rev; [now apply Hsq|].
  rewrite (Hlines line Hin). lia.
Qed.

Lemma placement_free_of_space (rows : list (list string)) :
  is_8x8 rows = true ->
  all_squares piece_or_empty rows = true ->
  free_of " " (placement rows) = true.
Proof.
  intros H8 Hsq. destruct (is_8x8_lines _ H8) as [_ Hlines].
  unfold all_squares in Hsq. rewrite forallb_forall in Hsq.
  unfold placement. apply free_of_concat; [reflexivity|].
  rewrite forallb_forall. intros seg Hin.
  apply in_map_iff in Hin as (line & <- & Hin).
  destruct (rank_from_weight line 0 (Hsq line Hin)) as (_ & F & _);
    [rewrite (Hlines line Hin); lia | exact F].
Qed.

End Reversal.

(** X12: on an 8x8 matrix of piece letters and empty squares, turning the
    matrix by half a turn, as [main] does for black, reverses the
    piece-placement field character by character. *)
Theorem flip_reverses_placement (rows : list (list string)) (color : string) :
  is_8x8 rows = true ->
  all_squares piece_or_empty rows = true ->
  exists fen fen',
    board_to_fen rows color = Ok fen
    /\ board_to_fen (flip rows) color = Ok fen'
    /\ placement_field fen' = reversed (placement_field fen).
Proof.
  intros H8 Hsq.
  rewrite (board_to_fen_8x8 _ _ H8).
  rewrite (board_to_fen_8x8 _ _ (flip_is_8x8 _ H8)).
  do 2 eexists. split; [reflexivity|]. split; [reflexivity|].
  pose proof (placement_free_of_space rows H8 Hsq) as Hfree.
  rewrite (placement_flip rows H8 Hsq).
  rewrite !placement_field_suffix;
    [reflexivity | assumption | now rewrite free_of_reversed].
Qed.

Lemma flip_reverses_placement_witness :
  is_8x8 (get_board_from_screenshot "screenshot.png") = true
  /\ all_squares piece_or_empty (get_board_from_screenshot "screenshot.png")
     = true
  /\ exists fen fen',
       board_to_fen (get_board_from_screenshot "screenshot.png") "black"
       = Ok fen
       /\ board_to_fen (flip (get_board_from_screenshot "screenshot.png"))
            "black" = Ok fen'
       /\ placement_field fen' = reversed (placement_field fen).
Proof.
  split; [reflexivity|]. split; [reflexivity|].
  apply (flip_reverses_placement
           (get_board_from_screenshot "screenshot.png") "black");
    reflexivity.
Defined.
(** ** Binary64 operations that do not round *)

Section Exactness.

Local Open Scope Z_scope.

Lemma digits_bounds (p : positive) :
  2 ^ (digits p - 1) <= Zpos p < 2 ^ digits p.
Proof.
  unfold digits. induction p as [p IH|p IH|]; cbn [digits2_pos].
  - rewrite Pos2Z.inj_succ.
    replace (Z.succ (Zpos (digits2_pos p)) - 1) with (Z.succ (Zpos (digits2_pos p) - 1)) by lia.
    rewrite !Z.pow_succ_r by lia. lia.
  - rewrite Pos2Z.inj_succ.
    replace (Z.succ (Zpos (digits2_pos p)) - 1) with (Z.succ (Zpos (digits2_pos p) - 1)) by lia.
    rewrite !Z.pow_succ_r by lia. lia.
  - simpl. lia.
Qed.

Lemma digits_unique (p : positive) (d : Z) :
  2 ^ (d - 1) <= Zpos p < 2 ^ d -> digits p = d.
Proof.
  intros [Hlo Hhi]. pose proof (digits_bounds p) as [Blo Bhi].
  assert (Hd : 0 < d).
  { destruct (Z.ltb_spec 0 d); [assumption|].
    destruct (Z.eqb_spec d 0) as [->|]; [simpl in Hhi; lia|].
    rewrite Z.pow_neg_r in Hhi by lia. lia. }
  assert (digits p > 0) by (unfold digits; lia).
  destruct (Z.lt_trichotomy (digits p) d) as [Hlt|[Heq|Hgt]]; [|assumption|].
  - assert (2 ^ digits p <= 2 ^ (d - 1)) by (apply Z.pow_le_mono_r; lia). lia.
  - assert (2 ^ d <= 2 ^ (digits p - 1)) by (apply Z.pow_le_mono_r; lia). lia.
Qed.

Lemma iter_xO (m n : positive) :
  Zpos (Pos.iter xO m n) = Zpos m * 2 ^ Zpos n.
Proof.
  induction n as [|n IH] using Pos.peano_ind.
  - simpl. lia.
  - rewrite Pos.iter_succ, Pos2Z.inj_succ, Z.pow_succ_r by lia.
    rewrite Pos2Z.inj_xO, IH. ring.
Qed.

Lemma iter_pos_iter {A : Type} (f : A -> A) (p : positive) (a : A) :
  iter_pos f p a = Pos.iter f a p.
Proof.
  revert a. induction p as [p IH|p IH|]; intros a; cbn [iter_pos Pos.iter].
  - rewrite !IH. rewrite <- !Pos.iter_swap. reflexivity.
  - now rewrite !IH.
  - reflexivity.
Qed.

Lemma shift_right_exact (m n : positive) :
  iter_pos shr_1 n
    {| shr_m := Zpos (Pos.iter xO m n); shr_r := false; shr_s := false |}
  = {| shr_m := Zpos m; shr_r := false; shr_s := false |}.
Proof.
  rewrite iter_pos_iter.
  induction n as [|n IH] using Pos.peano_ind.
  - reflexivity.
  - rewrite !Pos.iter_succ, <- Pos.iter_swap. cbn [shr_1 orb].
    exact IH.
Qed.

Lemma fexp_normal (x : Z) : -1021 <= x -> fexp 53 1024 x = x - 53.
Proof. unfold fexp, emin. lia. Qed.

(** A mantissa of 53 digits followed by [n] zero bits is rounded to itself. *)
Lemma round_aux_exact (s : bool) (m m0 : positive) (n e : Z) :
  digits m0 = 53 -> 0 <= n -> Zpos m = Zpos m0 * 2 ^ n ->
  -1074 <= e + n <= 971 ->
  binary_round_aux 53 1024 s (Zpos m) e loc_Exact = S754_finite s m0 (e + n).
Proof.
  intros Hd Hn Hm He.
  assert (Hsame : forall e',
             -1074 <= e' ->
             shr_fexp 53 1024 (Zpos m0) e' loc_Exact
             = ({| shr_m := Zpos m0; shr_r := false; shr_s := false |}, e')).
  { intros e' He'. unfold shr_fexp. cbn [Zdigits2 shr_record_of_loc].
    fold (digits m0). rewrite Hd, fexp_normal by lia.
    replace (53 + e' - 53 - e') with 0 by lia. reflexivity. }
  unfold binary_round_aux.
  destruct n as [|p|p]; [| |lia].
  - assert (m = m0) as -> by lia.
    rewrite Hsame by lia. cbn [shr_m loc_of_shr_record round_nearest_even].
    rewrite Hsame by lia. cbn [shr_m].
    replace (e + 0) with e by lia.
    destruct (Z.leb_spec e (1024 - 53)); [reflexivity | lia].
  - assert (m = Pos.iter xO m0 p) as ->
      by (apply Pos2Z.inj; rewrite iter_xO; exact Hm).
    unfold shr_fexp at 1. cbn [Zdigits2 shr_record_of_loc].
    assert (Hdig : Zpos (digits2_pos (Pos.iter xO m0 p)) = 53 + Zpos p).
    { apply (digits_unique (Pos.iter xO m0 p)).
      pose proof (digits_bounds m0) as B. rewrite Hd in B.
      rewrite iter_xO.
      replace (53 + Zpos p - 1) with (52 + Zpos p) by lia.
      rewrite !Z.pow_add_r by lia.
      assert (0 < 2 ^ Zpos p) by (apply Z.pow_pos_nonneg; lia).
      change (53 - 1) with 52 in B. nia. }
    rewrite Hdig, fexp_normal by lia.
    replace (53 + Zpos p + e - 53 - e) with (Zpos p) by lia.
    cbn [shr]. rewrite shift_right_exact.
    cbn [shr_m loc_of_shr_record round_nearest_even].
    rewrite Hsame by lia. cbn [shr_m].
    destruct (Z.leb_spec (e + Zpos p) (1024 - 53)); [reflexivity | lia].
Qed.

Lemma pow_lt_exponent (a b x : Z) :
  0 <= a -> 0 <= b -> 2 ^ a <= x < 2 ^ b -> a < b.
Proof.
  intros Ha Hb [Hlo Hhi].
  destruct (Z.lt_ge_cases a b) as [|Hge]; [assumption|].
  assert (2 ^ b <= 2 ^ a) by (apply Z.pow_le_mono_r; lia). lia.
Qed.

Lemma digits_pos (p : positive) : 1 <= digits p.
Proof. unfold digits. lia. Qed.

Lemma digits_small (p : positive) (k : Z) :
  0 <= k -> Zpos p < 2 ^ k -> digits p <= k.
Proof.
  intros Hk H. pose proof (digits_bounds p) as [Blo _].
  pose proof (digits_pos p).
  assert (digits p - 1 < k) by (apply (pow_lt_exponent _ _ (Zpos p)); lia).
  lia.
Qed.

Lemma digits_scaled (p m : positive) (j : Z) :
  0 <= j -> Zpos m = Zpos p * 2 ^ j -> digits m = digits p + j.
Proof.
  intros Hj Hm. apply digits_unique. rewrite Hm.
  pose proof (digits_bounds p) as B. pose proof (digits_pos p).
  replace (digits p + j - 1) with (digits p - 1 + j) by lia.
  rewrite !Z.pow_add_r by lia.
  assert (0 < 2 ^ j) by (apply Z.pow_pos_nonneg; lia). nia.
Qed.

Lemma canon_mantissa (P : positive) :
  Zpos P < 2 ^ 53 ->
  Zpos (Z.to_pos (Zpos P * 2 ^ (53 - digits P)))
  = Zpos P * 2 ^ (53 - digits P)
  /\ digits (Z.to_pos (Zpos P * 2 ^ (53 - digits P))) = 53.
Proof.
  intros HP. pose proof (digits_small P 53 ltac:(lia) HP) as Hd.
  assert (Hpos : 0 < Zpos P * 2 ^ (53 - digits P))
    by (apply Z.mul_pos_pos; [lia | apply Z.pow_pos_nonneg; lia]).
  split; [now rewrite Z2Pos.id|].
  rewrite (digits_scaled P _ (53 - digits P)); [lia | lia |].
  now rewrite Z2Pos.id.
Qed.

(** Rounding a mantissa that is [P] followed by [j] zero bits, [P] of at
    most 53 digits, is exact. *)
Lemma round_exact (s : bool) (P m : positive) (j e : Z) :
  Zpos P < 2 ^ 53 -> 0 <= j -> Zpos m = Zpos P * 2 ^ j ->
  -1000 <= e -> e + j <= 900 ->
  binary_round 53 1024 s m e = canon s P (e + j).
Proof.
  intros HP Hj Hm Hlo Hhi.
  pose proof (digits_small P 53 ltac:(lia) HP) as Hd.
  pose proof (digits_pos P) as Hd1.
  pose proof (digits_scaled P m j Hj Hm) as Hdm.
  destruct (canon_mantissa P HP) as [Hval Hdig].
  unfold binary_round, canon. fold (digits m).
  rewrite Hdm, fexp_normal by lia. unfold shl_align.
  destruct (digits P + j + e - 53 - e) as [|k|k] eqn:Hdiff.
  - rewrite (round_aux_exact s m _ 0 e Hdig); try lia.
    + f_equal. lia.
    + rewrite Hval, Hm. replace (53 - digits P) with j by lia. lia.
  - rewrite (round_aux_exact s m _ (Zpos k) e Hdig); try lia.
    + f_equal. lia.
    + rewrite Hval, Hm. replace j with (53 - digits P + Zpos k) by lia.
      rewrite Z.pow_add_r by lia. ring.
  - rewrite (round_aux_exact s (Pos.iter xO m k) _ 0 _ Hdig); try lia.
    + f_equal. lia.
    + rewrite Hval, iter_xO, Hm.
      replace (53 - digits P) with (j + Zpos k) by lia.
      rewrite Z.pow_add_r by lia. ring.
Qed.

Lemma normalize_exact (N j e : Z) :
  Z.abs N < 2 ^ 53 -> 0 <= j -> -1000 <= e -> e + j <= 900 ->
  binary_normalize 53 1024 (N * 2 ^ j) e false = float_of N (e + j).
Proof.
  intros HN Hj Hlo Hhi.
  assert (Hpow : 0 < 2 ^ j) by (apply Z.pow_pos_nonneg; lia).
  destruct N as [|P|P].
  - reflexivity.
  - destruct (Zpos P * 2 ^ j) as [|m|m] eqn:Hm; try lia.
    cbn [binary_normalize float_of].
    apply round_exact; try assumption; lia.
  - destruct (Zneg P * 2 ^ j) as [|m|m] eqn:Hm; try lia.
    cbn [binary_normalize float_of].
    apply round_exact; try assumption; lia.
Qed.

Lemma canon_scaled (s : bool) (P P' : positive) (j q : Z) :
  Zpos P' < 2 ^ 53 -> 0 <= j -> Zpos P' = Zpos P * 2 ^ j ->
  canon s P' q = canon s P (q + j).
Proof.
  intros HP Hj HP'. unfold canon.
  rewrite (digits_scaled P P' j Hj HP').
  f_equal; [|lia]. f_equal. rewrite HP'.
  pose proof (digits_small P' 53 ltac:(lia) HP) as Hd.
  rewrite (digits_scaled P P' j Hj HP') in Hd.
  replace (53 - digits P) with (j + (53 - (digits P + j))) by lia.
  rewrite Z.pow_add_r by lia. ring.
Qed.

Lemma float_of_scaled (N j q : Z) :
  Z.abs (N * 2 ^ j) < 2 ^ 53 -> 0 <= j ->
  float_of (N * 2 ^ j) q = float_of N (q + j).
Proof.
  intros HN Hj.
  assert (Hpow : 0 < 2 ^ j) by (apply Z.pow_pos_nonneg; lia).
  destruct N as [|P|P].
  - reflexivity.
  - destruct (Zpos P * 2 ^ j) as [|m|m] eqn:Hm; try lia.
    cbn [float_of]. apply canon_scaled; lia.
  - destruct (Zneg P * 2 ^ j) as [|m|m] eqn:Hm; try lia.
    cbn [float_of]. apply canon_scaled; lia.
Qed.

(** The product of two floats whose exact product has at most 53 digits. *)
Lemma mul_exact (sa sb : bool) (A B : positive) (qa qb : Z) :
  Zpos (A * B) < 2 ^ 53 ->
  -400 <= qa <= 400 -> -400 <= qb <= 400 ->
  SFmul 53 1024 (canon sa A qa) (canon sb B qb)
  = canon (xorb sa sb) (A * B) (qa + qb).
Proof.
  intros HAB Hqa Hqb.
  assert (HA : Zpos A < 2 ^ 53) by nia.
  assert (HB : Zpos B < 2 ^ 53) by nia.
  destruct (canon_mantissa A HA) as [VA _].
  destruct (canon_mantissa B HB) as [VB _].
  destruct (canon_mantissa (A * B) HAB) as [VAB DAB].
  pose proof (digits_small A 53 ltac:(lia) HA) as DA.
  pose proof (digits_small B 53 ltac:(lia) HB) as DB.
  pose proof (digits_small (A * B) 53 ltac:(lia) HAB) as DP.
  pose proof (digits_pos A). pose proof (digits_pos B).
  pose proof (digits_pos (A * B)).
  assert (Hlow : digits A + digits B - 2 < digits (A * B)).
  { pose proof (digits_bounds A) as [LA _].
    pose proof (digits_bounds B) as [LB _].
    pose proof (digits_bounds (A * B)) as [_ UP].
    apply (pow_lt_exponent _ _ (Zpos (A * B))); try lia.
    split; [|assumption].
    replace (digits A + digits B - 2) with ((digits A - 1) + (digits B - 1))
      by lia.
    rewrite Z.pow_add_r, Pos2Z.inj_mul by lia.
    apply Z.mul_le_mono_nonneg; try assumption;
      apply Z.pow_nonneg; lia. }
  unfold canon at 1 2. cbn [SFmul].
  rewrite (round_aux_exact (xorb sa sb) _ _
             (53 - digits A - digits B + digits (A * B)) _ DAB); try lia.
  - unfold canon. f_equal. lia.
  - rewrite Pos2Z.inj_mul, VA, VB, VAB, Pos2Z.inj_mul.
    assert (E : 2 ^ (53 - digits A) * 2 ^ (53 - digits B)
                = 2 ^ (53 - digits (A * B))
                  * 2 ^ (53 - digits A - digits B + digits (A * B))).
    { rewrite <- !Z.pow_add_r by lia. f_equal. lia. }
    transitivity (Zpos A * Zpos B
                  * (2 ^ (53 - digits A) * 2 ^ (53 - digits B)));
      [ring | rewrite E; ring].
Qed.

Lemma shl_align_value (m : positive) (e ez : Z) :
  ez <= e -> Zpos (fst (shl_align m e ez)) = Zpos m * 2 ^ (e - ez).
Proof.
  intros H. unfold shl_align.
  destruct (ez - e) as [|k|k] eqn:Hd; try lia.
  - replace (e - ez) with 0 by lia. cbn [fst]. lia.
  - cbn [fst]. rewrite iter_xO. f_equal. f_equal. lia.
Qed.

(** The sum of two floats whose exact sum, counted in units of the smaller
    of the two exponents, has at most 53 digits. *)
Lemma add_exact (sa sb : bool) (A B : positive) (qa qb : Z) :
  let q := Z.min qa qb in
  let N := signed sa A * 2 ^ (qa - q) + signed sb B * 2 ^ (qb - q) in
  Zpos A < 2 ^ 53 -> Zpos B < 2 ^ 53 -> Z.abs N < 2 ^ 53 ->
  -400 <= qa <= 400 -> -400 <= qb <= 400 ->
  SFadd 53 1024 (canon sa A qa) (canon sb B qb) = float_of N q.
Proof.
  intros q N HA HB HN Hqa Hqb.
  destruct (canon_mantissa A HA) as [VA _].
  destruct (canon_mantissa B HB) as [VB _].
  pose proof (digits_small A 53 ltac:(lia) HA) as DA.
  pose proof (digits_small B 53 ltac:(lia) HB) as DB.
  pose proof (digits_pos A). pose proof (digits_pos B).
  unfold canon. cbn [SFadd].
  set (ea := qa - (53 - digits A)). set (eb := qb - (53 - digits B)).
  set (ez := Z.min ea eb).
  rewrite (shl_align_value _ ea ez), (shl_align_value _ eb ez)
    by (subst ez; lia).
  rewrite VA, VB.
  assert (Hez : ez <= q) by (subst ez ea eb q; lia).
  replace (cond_Zopp sa (Zpos A * 2 ^ (53 - digits A) * 2 ^ (ea - ez))
           + cond_Zopp sb (Zpos B * 2 ^ (53 - digits B) * 2 ^ (eb - ez)))
    with (N * 2 ^ (q - ez)).
  - rewrite normalize_exact by (subst ez ea eb q; lia).
    f_equal. lia.
  - subst N.
    assert (EA : 2 ^ (qa - q) * 2 ^ (q - ez)
                 = 2 ^ (53 - digits A) * 2 ^ (ea - ez)).
    { rewrite <- !Z.pow_add_r by (subst ez ea eb q; lia).
      f_equal. subst ea. lia. }
    assert (EB : 2 ^ (qb - q) * 2 ^ (q - ez)
                 = 2 ^ (53 - digits B) * 2 ^ (eb - ez)).
    { rewrite <- !Z.pow_add_r by (subst ez ea eb q; lia).
      f_equal. subst eb. lia. }
    rewrite Z.mul_add_distr_r, <- !Z.mul_assoc, EA, EB.
    unfold signed, cond_Zopp.
    destruct sa, sb; rewrite <- ?Pos2Z.opp_pos; ring.
Qed.


Lemma value_canon (s : bool) (P : positive) (q : Z) :
  Zpos P < 2 ^ 53 ->
  exists v, B64.value (canon s P q) = Some v
            /\ (v == dyadic (signed s P) q)%Q.
Proof.
  intros HP. destruct (canon_mantissa P HP) as [V _].
  pose proof (digits_small P 53 ltac:(lia) HP) as D.
  pose proof (digits_pos P).
  unfold canon. cbn [B64.value]. rewrite V.
  set (k := 53 - digits P) in *.
  eexists. split; [reflexivity|].
  assert (Hk : 0 < 2 ^ k) by (apply Z.pow_pos_nonneg; lia).
  assert (Hcore :
    ((if (0 <=? q - k)%Z then inject_Z (Zpos P * 2 ^ k * 2 ^ (q - k))
      else (Zpos P * 2 ^ k # Pos.pow 2 (Z.to_pos (- (q - k)))))
     == dyadic (Zpos P) q)%Q).
  { unfold dyadic.
    destruct (Z.leb_spec 0 (q - k)), (Z.leb_spec 0 q); try lia.
    - rewrite <- Z.mul_assoc, <- Z.pow_add_r by lia.
      now replace (k + (q - k)) with q by lia.
    - unfold Qeq, inject_Z. cbn [Qnum Qden].
      rewrite Pos2Z.inj_pow, Z2Pos.id by lia.
      replace k with (q + - (q - k)) at 1 by lia.
      rewrite Z.pow_add_r by lia. ring.
    - unfold Qeq. cbn [Qnum Qden].
      rewrite !Pos2Z.inj_pow, !Z2Pos.id by lia.
      replace (- (q - k)) with (k + - q) by lia.
      rewrite Z.pow_add_r by lia. ring. }
  destruct s; cbn [signed].
  - rewrite Hcore. unfold dyadic.
    destruct (0 <=? q)%Z.
    + unfold Qeq, Qopp, inject_Z. cbn [Qnum Qden]. lia.
    + unfold Qeq, Qopp. cbn [Qnum Qden]. lia.
  - exact Hcore.
Qed.

Lemma value_float_of (N q : Z) :
  Z.abs N < 2 ^ 53 ->
  exists v, B64.value (float_of N q) = Some v /\ (v == dyadic N q)%Q.
Proof.
  intros HN. destruct N as [|P|P]; cbn [float_of].
  - exists 0%Q. split; [reflexivity|]. unfold dyadic.
    destruct (0 <=? q)%Z; reflexivity.
  - apply (value_canon false P q). lia.
  - apply (value_canon true P q). lia.
Qed.

End Exactness.

(** ** [calculate_centers] on integer corners *)

Section ComputedCenters.

Lemma rounded_exact (N e : Z) :
  (Z.abs N < 2 ^ 53)%Z -> (-1000 <= e <= 900)%Z ->
  B64.rounded N e = Ok (float_of N e).
Proof.
  intros HN He. unfold B64.rounded.
  pose proof (normalize_exact N 0 e HN ltac:(lia) ltac:(lia) ltac:(lia)) as H.
  rewrite Z.pow_0_r, Z.mul_1_r, Z.add_0_r in H. rewrite H.
  destruct N; reflexivity.
Qed.

Lemma plus_half_exact (k : Z) :
  in_0_7 k = true ->
  B64.plus (Int k) B64.half = Ok (canon false (Z.to_pos (2 * k + 1)) (-1)).
Proof.
  intros Hk. apply in_0_7_cases in Hk. simpl in Hk.
  repeat (destruct Hk as [<-|Hk]; [reflexivity|]). contradiction.
Qed.

Lemma mul_float_of (K : positive) (W : Z) :
  (Z.abs (Zpos K * W) < 2 ^ 53)%Z ->
  B64.mul (canon false K (-1)) (float_of W (-3)) = float_of (Zpos K * W) (-4).
Proof.
  intros H. unfold B64.mul. destruct W as [|P|P].
  - reflexivity.
  - change (Zpos K * Zpos P)%Z with (Zpos (K * P)) in *.
    cbn [float_of]. rewrite mul_exact by lia. reflexivity.
  - change (Zpos K * Zneg P)%Z with (Zneg (K * P)) in *.
    cbn [float_of]. rewrite mul_exact by lia. reflexivity.
Qed.

Lemma add_float_of (a T : Z) :
  (Z.abs a < 2 ^ 49)%Z -> (Z.abs T < 2 ^ 53)%Z ->
  (Z.abs (16 * a + T) < 2 ^ 53)%Z ->
  B64.add (float_of a 0) (float_of T (-4)) = float_of (16 * a + T) (-4).
Proof.
  intros Ha HT HN. unfold B64.add.
  assert (Hscaled : float_of (a * 2 ^ 4) (-4) = float_of a (-4 + 4)).
  { apply float_of_scaled; [|lia]. change (2 ^ 4)%Z with 16%Z. lia. }
  change (2 ^ 4)%Z with 16%Z in Hscaled. change (-4 + 4)%Z with 0%Z in Hscaled.
  assert (Hsum : forall sa sb A B,
             a = signed sa A -> T = signed sb B ->
             SFadd 53 1024 (canon sa A 0) (canon sb B (-4))
             = float_of (16 * a + T) (-4)).
  { intros sa sb A B -> ->.
    pose proof (add_exact sa sb A B 0 (-4)) as H. cbv zeta in H.
    change (Z.min 0 (-4)) with (-4)%Z in H.
    change (0 - -4)%Z with 4%Z in H. change (-4 - -4)%Z with 0%Z in H.
    change (2 ^ 4)%Z with 16%Z in H. change (2 ^ 0)%Z with 1%Z in H.
    replace (signed sa A * 16 + signed sb B * 1)%Z
      with (16 * signed sa A + signed sb B)%Z in H by lia.
    apply H; try lia.
    - destruct sa; cbn [signed] in Ha; lia.
    - destruct sb; cbn [signed] in HT; lia. }
  destruct a as [|A|A].
  - destruct T as [|B|B]; reflexivity.
  - destruct T as [|B|B].
    + rewrite Z.add_0_r, Z.mul_comm, Hscaled. reflexivity.
    + apply (Hsum false false A B); reflexivity.
    + apply (Hsum false true A B); reflexivity.
  - destruct T as [|B|B].
    + rewrite Z.add_0_r, Z.mul_comm, Hscaled. reflexivity.
    + apply (Hsum true false A B); reflexivity.
    + apply (Hsum true true A B); reflexivity.
Qed.

(** One coordinate of a centre: [a + (k + 0.5) * ((b - a) / 8)] on two
    integers below [2^48] in magnitude is computed without rounding. *)
Lemma coordinate_exact (a b k : Z) :
  (Z.abs a < 2 ^ 48)%Z -> (Z.abs b < 2 ^ 48)%Z -> in_0_7 k = true ->
  B64.over_8 (Int (b - a)) = Ok (float_of (b - a) (-3))
  /\ (h <- B64.plus (Int k) B64.half ;;
      B64.plus (Int a) (B64.mul h (float_of (b - a) (-3))))
     = Ok (float_of (16 * a + (2 * k + 1) * (b - a)) (-4)).
Proof.
  intros Ha Hb Hk.
  assert (Hk' : (0 <= k <= 7)%Z).
  { unfold in_0_7 in Hk. apply andb_true_iff in Hk as [Hlo Hhi].
    apply Z.leb_le in Hlo. apply Z.ltb_lt in Hhi. lia. }
  assert (P48 : (2 ^ 53 = 32 * 2 ^ 48)%Z) by reflexivity.
  assert (P49 : (2 ^ 49 = 2 * 2 ^ 48)%Z) by reflexivity.
  split.
  - cbn [B64.over_8]. apply rounded_exact; lia.
  - rewrite (plus_half_exact k Hk). cbn [bind].
    rewrite mul_float_of by (rewrite Z2Pos.id by lia; nia).
    rewrite Z2Pos.id by lia.
    unfold B64.plus. cbn [B64.to_float].
    rewrite rounded_exact by lia. cbn [bind].
    rewrite add_float_of by nia. reflexivity.
Qed.

(** The loops, once every coordinate is known. *)
Lemma centers_line (ulx uly : number) (sw sh : spec_float)
    (fx fy : Z -> spec_float) (row : Z) (cols : list Z)
    (acc : list NumPoint) :
  (forall col, In col cols ->
     (h <- B64.plus (Int col) B64.half ;; B64.plus ulx (B64.mul h sw))
     = Ok (fx col)) ->
  (h <- B64.plus (Int row) B64.half ;; B64.plus uly (B64.mul h sh))
  = Ok (fy row) ->
  for_each cols
    (fun col row_coords =>
       col_half <- B64.plus (Int col) B64.half ;;
       px <- B64.plus ulx (B64.mul col_half sw) ;;
       row_half <- B64.plus (Int row) B64.half ;;
       py <- B64.plus uly (B64.mul row_half sh) ;;
       Ok (row_coords ++ [mkNumPoint (Float px) (Float py)])%list)
    acc
  = Ok (acc ++ map (fun col => mkNumPoint (Float (fx col)) (Float (fy row)))
                 cols)%list.
Proof.
  intros Hx Hy.
  destruct (B64.plus (Int row) B64.half) as [rh|]; [|discriminate].
  cbn [bind] in Hy |- *. rewrite Hy. cbn [bind]. revert acc.
  induction cols as [|col cols IH]; intros acc.
  - cbn [for_each map]. now rewrite app_nil_r.
  - cbn [for_each map].
    pose proof (Hx col (or_introl eq_refl)) as Hcol.
    destruct (B64.plus (Int col) B64.half) as [ch|]; [|discriminate].
    cbn [bind] in Hcol |- *. rewrite Hcol. cbn [bind].
    rewrite IH by (intros c Hc; apply Hx; now right).
    now rewrite <- app_assoc.
Qed.

Lemma centers_lines (ulx uly : number) (sw sh : spec_float)
    (fx fy : Z -> spec_float) (rows cols : list Z)
    (acc : list (list NumPoint)) :
  (forall col, In col cols ->
     (h <- B64.plus (Int col) B64.half ;; B64.plus ulx (B64.mul h sw))
     = Ok (fx col)) ->
  (forall row, In row rows ->
     (h <- B64.plus (Int row) B64.half ;; B64.plus uly (B64.mul h sh))
     = Ok (fy row)) ->
  for_each rows
    (fun row centers =>
       row_coords <-
         for_each cols
           (fun col row_coords =>
              col_half <- B64.plus (Int col) B64.half ;;
              px <- B64.plus ulx (B64.mul col_half sw) ;;
              row_half <- B64.plus (Int row) B64.half ;;
              py <- B64.plus uly (B64.mul row_half sh) ;;
              Ok (row_coords ++ [mkNumPoint (Float px) (Float py)])%list)
           [] ;;
       Ok (centers ++ [row_coords])%list)
    acc
  = Ok (acc
        ++ map (fun row =>
                  map (fun col =>
                         mkNumPoint (Float (fx col)) (Float (fy row))) cols)
             rows)%list.
Proof.
  intros Hx Hy. revert acc.
  induction rows as [|row rows IH]; intros acc.
  - cbn [for_each map]. now rewrite app_nil_r.
  - cbn [for_each map].
    rewrite (centers_line ulx uly sw sh fx fy row cols [] Hx)
      by (apply Hy; now left).
    cbn [bind app].
    rewrite IH by (intros r Hr; apply Hy; now right).
    now rewrite <- app_assoc.
Qed.

Lemma in_range_0_7 (k : Z) : In k (range 0 8 1) -> in_0_7 k = true.
Proof.
  change (range 0 8 1) with [0; 1; 2; 3; 4; 5; 6; 7]%Z. simpl.
  intros H. repeat (destruct H as [<-|H]; [reflexivity|]). contradiction.
Qed.

(** On integer corners below [2^48] in magnitude no operation rounds: the
    grid holds the floats that stand for the exact centres. *)
Lemma calculate_centers_exact (x1 y1 x2 y2 : Z) :
  (Z.abs x1 < 2 ^ 48)%Z -> (Z.abs y1 < 2 ^ 48)%Z ->
  (Z.abs x2 < 2 ^ 48)%Z -> (Z.abs y2 < 2 ^ 48)%Z ->
  calculate_centers (mkNumPoint (Int x1) (Int y1)) (mkNumPoint (Int x2) (Int y2))
  = Ok (map (fun row =>
               map (fun col =>
                      mkNumPoint
                        (Float (float_of (sixteenths x1 x2 col) (-4)))
                        (Float (float_of (sixteenths y1 y2 row) (-4))))
                 [0; 1; 2; 3; 4; 5; 6; 7]%Z)
          [0; 1; 2; 3; 4; 5; 6; 7]%Z).
Proof.
  intros Hx1 Hy1 Hx2 Hy2. unfold calculate_centers.
  cbn [nx ny B64.minus bind].
  destruct (coordinate_exact x1 x2 0 Hx1 Hx2 eq_refl) as [-> _].
  destruct (coordinate_exact y1 y2 0 Hy1 Hy2 eq_refl) as [-> _].
  cbn [bind].
  rewrite (centers_lines (Int x1) (Int y1) _ _
             (fun col => float_of (sixteenths x1 x2 col) (-4))
             (fun row => float_of (sixteenths y1 y2 row) (-4))).
  - reflexivity.
  - intros col Hcol.
    now destruct (coordinate_exact x1 x2 col Hx1 Hx2 (in_range_0_7 col Hcol)).
  - intros row Hrow.
    now destruct (coordinate_exact y1 y2 row Hy1 Hy2 (in_range_0_7 row Hrow)).
Qed.

End ComputedCenters.

Section CentreValues.

Lemma sixteenths_bound (a b k : Z) :
  (Z.abs a < 2 ^ 48)%Z -> (Z.abs b < 2 ^ 48)%Z -> in_0_7 k = true ->
  (Z.abs (sixteenths a b k) < 2 ^ 53)%Z.
Proof.
  intros Ha Hb Hk. unfold sixteenths.
  assert (P48 : (2 ^ 53 = 32 * 2 ^ 48)%Z) by reflexivity.
  unfold in_0_7 in Hk. apply andb_true_iff in Hk as [Hlo Hhi].
  apply Z.leb_le in Hlo. apply Z.ltb_lt in Hhi. nia.
Qed.

Lemma sixteenths_formula (a b k : Z) :
  (dyadic (sixteenths a b k) (-4)
   == inject_Z a + (inject_Z k + (1 # 2)) * (inject_Z b - inject_Z a) / 8)%Q.
Proof.
  unfold dyadic, sixteenths. cbn [Z.leb Z.compare Z.opp Z.to_pos].
  change (Pos.pow 2 4) with 16%positive.
  rewrite Qmake_Qdiv.
  rewrite inject_Z_plus, !inject_Z_mult, inject_Z_plus, inject_Z_mult.
  unfold Z.sub. rewrite inject_Z_plus, inject_Z_opp.
  change (inject_Z 16) with 16%Q. change (inject_Z 2) with 2%Q.
  change (inject_Z 1) with 1%Q. change (inject_Z (Zpos 16)) with 16%Q.
  field.
Qed.

(** The value of one coordinate of the grid on integer corners. *)
Lemma centre_value (a b k : Z) :
  (Z.abs a < 2 ^ 48)%Z -> (Z.abs b < 2 ^ 48)%Z -> in_0_7 k = true ->
  exists v,
    B64.value (float_of (sixteenths a b k) (-4)) = Some v
    /\ (v == inject_Z a
            + (inject_Z k + (1 # 2)) * (inject_Z b - inject_Z a) / 8)%Q.
Proof.
  intros Ha Hb Hk.
  destruct (value_float_of (sixteenths a b k) (-4)
              (sixteenths_bound a b k Ha Hb Hk)) as (v & Hv & Hq).
  exists v. split; [exact Hv|]. rewrite Hq. apply sixteenths_formula.
Qed.

Lemma computed_cell (fx fy : Z -> spec_float) (r c : Z) :
  in_0_7 r = true -> in_0_7 c = true ->
  cell (map (fun row =>
               map (fun col => mkNumPoint (Float (fx col)) (Float (fy row)))
                 [0; 1; 2; 3; 4; 5; 6; 7]%Z)
          [0; 1; 2; 3; 4; 5; 6; 7]%Z) r c
  = Ok (mkNumPoint (Float (fx c)) (Float (fy r))).
Proof.
  intros Hr Hc. apply in_0_7_cases in Hr, Hc. simpl in Hr, Hc.
  repeat (destruct Hr as [<-|Hr]; [|]); try contradiction;
    repeat (destruct Hc as [<-|Hc]; [|]); try contradiction; reflexivity.
Qed.

End CentreValues.

(** C6, as stated: for any corners of positive width and height the grid
    would hold the exact point [(x1 + (c + 0.5) W / 8, ...)].  For the
    corners [(2^53 + 1, 0)] and [(2^53 + 9, 8)] the first centre is computed
    as [2^53], not [2^53 + 3/2]: the floats round. *)
Lemma centers_round_beyond_2_53 :
  let upper_left_corner := mkNumPoint (Int 9007199254740993) (Int 0) in
  let lower_right_corner := mkNumPoint (Int 9007199254741001) (Int 8) in
  (0 < 9007199254741001 - 9007199254740993)%Z /\ (0 < 8 - 0)%Z
  /\ ~ exists grid p vx,
         calculate_centers upper_left_corner lower_right_corner = Ok grid
         /\ cell grid 0 0 = Ok p
         /\ B64.number_value (nx p) = Some vx
         /\ (vx == inject_Z 9007199254740993
                   + (inject_Z 0 + (1 # 2))
                     * (inject_Z 9007199254741001
                        - inject_Z 9007199254740993) / 8)%Q.
Proof.
  cbv zeta. split; [reflexivity|]. split; [reflexivity|].
  intros (grid & p & vx & Hgrid & Hcell & Hvx & Heq).
  vm_compute in Hgrid. injection Hgrid as <-.
  vm_compute in Hcell. injection Hcell as <-.
  vm_compute in Hvx. injection Hvx as <-.
  vm_compute in Heq. discriminate.
Qed.

(** C6, amended: for two corners with integer coordinates below [2^48] in
    magnitude, spanning a positive width [W] and height [H], the grid of
    [calculate_centers] is 8x8 and holds at [r][c], for [r] and [c] in
    0..7, exactly the point [(x1 + (c + 1/2) * W / 8, y1 + (r + 1/2) * H / 8)]:
    width and height are divided by 8 separately and no operation
    rounds. *)
Theorem calculate_centers_cell (x1 y1 x2 y2 r c : Z) :
  (Z.abs x1 < 2 ^ 48)%Z -> (Z.abs y1 < 2 ^ 48)%Z ->
  (Z.abs x2 < 2 ^ 48)%Z -> (Z.abs y2 < 2 ^ 48)%Z ->
  (0 < x2 - x1)%Z -> (0 < y2 - y1)%Z ->
  in_0_7 r = true -> in_0_7 c = true ->
  exists grid p vx vy,
    calculate_centers (mkNumPoint (Int x1) (Int y1))
      (mkNumPoint (Int x2) (Int y2)) = Ok grid
    /\ is_8x8 grid = true
    /\ cell grid r c = Ok p
    /\ B64.number_value (nx p) = Some vx
    /\ B64.number_value (ny p) = Some vy
    /\ (vx == inject_Z x1
              + (inject_Z c + (1 # 2)) * (inject_Z x2 - inject_Z x1) / 8)%Q
    /\ (vy == inject_Z y1
              + (inject_Z r + (1 # 2)) * (inject_Z y2 - inject_Z y1) / 8)%Q.
Proof.
  intros Hx1 Hy1 Hx2 Hy2 _ _ Hr Hc.
  destruct (centre_value x1 x2 c Hx1 Hx2 Hc) as (vx & Hvx & Hxq).
  destruct (centre_value y1 y2 r Hy1 Hy2 Hr) as (vy & Hvy & Hyq).
  eexists. eexists. exists vx, vy.
  split; [apply calculate_centers_exact; assumption|].
  split; [reflexivity|].
  split; [apply (computed_cell _ _ r c); assumption|].
  cbn [nx ny B64.number_value]. repeat split; assumption.
Qed.

Lemma calculate_centers_cell_witness :
  (Z.abs 19 < 2 ^ 48)%Z /\ (Z.abs 182 < 2 ^ 48)%Z
  /\ (Z.abs 785 < 2 ^ 48)%Z /\ (Z.abs 948 < 2 ^ 48)%Z
  /\ (0 < 785 - 19)%Z /\ (0 < 948 - 182)%Z
  /\ in_0_7 6 = true /\ in_0_7 4 = true
  /\ exists grid p vx vy,
       calculate_centers (mkNumPoint (Int 19) (Int 182))
         (mkNumPoint (Int 785) (Int 948)) = Ok grid
       /\ is_8x8 grid = true
       /\ cell grid 6 4 = Ok p
       /\ B64.number_value (nx p) = Some vx
       /\ B64.number_value (ny p) = Some vy
       /\ (vx == inject_Z 19
                 + (inject_Z 4 + (1 # 2)) * (inject_Z 785 - inject_Z 19) / 8)%Q
       /\ (vy == inject_Z 182
                 + (inject_Z 6 + (1 # 2)) * (inject_Z 948 - inject_Z 182) / 8)%Q.
Proof.
  do 8 (split; [reflexivity|]).
  apply (calculate_centers_cell 19 182 785 948 6 4); reflexivity.
Defined.

(** ** Where the clicks land *)

Section Clicks.

Lemma all_some_map {A B : Type} (f : A -> option B) (g : A -> B)
    (l : list A) :
  (forall a, In a l -> f a = Some (g a)) ->
  all_some (map f l) = Some (map g l).
Proof.
  induction l as [|a l IH]; intros H; [reflexivity|].
  cbn [map all_some]. rewrite (H a (or_introl eq_refl)).
  rewrite IH by (intros b Hb; apply H; now right). reflexivity.
Qed.

Lemma points_of_lines (fx fy : Z -> spec_float) (rows cols : list Z) :
  (forall col, In col cols -> B64.value (fx col) = Some (exact_value (fx col))) ->
  (forall row, In row rows -> B64.value (fy row) = Some (exact_value (fy row))) ->
  points_of
    (map (fun row =>
            map (fun col => mkNumPoint (Float (fx col)) (Float (fy row))) cols)
       rows)
  = Some (map (fun row =>
                 map (fun col =>
                        mkPoint (exact_value (fx col)) (exact_value (fy row)))
                   cols)
            rows).
Proof.
  intros Hx Hy. unfold points_of. rewrite map_map.
  apply all_some_map. intros row Hrow. rewrite map_map.
  apply all_some_map. intros col Hcol.
  unfold point_of. cbn [nx ny B64.number_value].
  now rewrite (Hx col Hcol), (Hy row Hrow).
Qed.

Lemma flip_lines {A : Type} (h : Z -> Z -> A) (rows cols : list Z) :
  flip (map (fun row => map (fun col => h col row) cols) rows)
  = map (fun row => map (fun col => h col row) (rev cols)) (rev rows).
Proof.
  unfold flip. rewrite <- map_rev, map_map.
  apply map_ext. intros row. now rewrite map_rev.
Qed.

Lemma exact_centre (a b k : Z) :
  (Z.abs a < 2 ^ 48)%Z -> (Z.abs b < 2 ^ 48)%Z -> in_0_7 k = true ->
  B64.value (float_of (sixteenths a b k) (-4))
  = Some (exact_value (float_of (sixteenths a b k) (-4)))
  /\ (exact_value (float_of (sixteenths a b k) (-4))
      == inject_Z a + (inject_Z k + (1 # 2)) * (inject_Z b - inject_Z a) / 8)%Q.
Proof.
  intros Ha Hb Hk.
  destruct (centre_value a b k Ha Hb Hk) as (v & Hv & Hq).
  unfold exact_value. rewrite Hv. now split.
Qed.

Lemma in_list_0_7 (k : Z) :
  In k [0; 1; 2; 3; 4; 5; 6; 7]%Z -> in_0_7 k = true.
Proof.
  simpl. intros H. repeat (destruct H as [<-|H]; [reflexivity|]).
  contradiction.
Qed.

(** The grid [main] builds on integer corners, and the points handed to
    [make_move]. *)
Lemma oriented_points (x1 y1 x2 y2 : Z) (color : string) :
  (Z.abs x1 < 2 ^ 48)%Z -> (Z.abs y1 < 2 ^ 48)%Z ->
  (Z.abs x2 < 2 ^ 48)%Z -> (Z.abs y2 < 2 ^ 48)%Z ->
  exists grid,
    oriented_centers (mkNumPoint (Int x1) (Int y1))
      (mkNumPoint (Int x2) (Int y2)) color = Ok grid
    /\ points_of grid
       = Some (if color =? "black" then flip (centre_points x1 y1 x2 y2)
               else centre_points x1 y1 x2 y2).
Proof.
  intros Hx1 Hy1 Hx2 Hy2. unfold oriented_centers.
  rewrite calculate_centers_exact by assumption. cbn [bind].
  eexists. split; [reflexivity|].
  assert (Hvx : forall col, In col [0; 1; 2; 3; 4; 5; 6; 7]%Z ->
            B64.value (float_of (sixteenths x1 x2 col) (-4))
            = Some (exact_value (float_of (sixteenths x1 x2 col) (-4))))
    by (intros col Hcol;
        now destruct (exact_centre x1 x2 col Hx1 Hx2 (in_list_0_7 col Hcol))).
  assert (Hvy : forall row, In row [0; 1; 2; 3; 4; 5; 6; 7]%Z ->
            B64.value (float_of (sixteenths y1 y2 row) (-4))
            = Some (exact_value (float_of (sixteenths y1 y2 row) (-4))))
    by (intros row Hrow;
        now destruct (exact_centre y1 y2 row Hy1 Hy2 (in_list_0_7 row Hrow))).
  unfold centre_points. destruct (color =? "black").
  - rewrite (flip_lines
               (fun col row =>
                  mkNumPoint (Float (float_of (sixteenths x1 x2 col) (-4)))
                    (Float (float_of (sixteenths y1 y2 row) (-4))))).
    rewrite (flip_lines
               (fun col row =>
                  mkPoint (exact_value (float_of (sixteenths x1 x2 col) (-4)))
                    (exact_value (float_of (sixteenths y1 y2 row) (-4))))).
    apply (points_of_lines
             (fun col => float_of (sixteenths x1 x2 col) (-4))
             (fun row => float_of (sixteenths y1 y2 row) (-4)));
      intros k Hk; [apply Hvx | apply Hvy]; now apply in_rev.
  - apply (points_of_lines
             (fun col => float_of (sixteenths x1 x2 col) (-4))
             (fun row => float_of (sixteenths y1 y2 row) (-4)));
      assumption.
Qed.

Lemma centre_points_cell (x1 y1 x2 y2 r c : Z) :
  in_0_7 r = true -> in_0_7 c = true ->
  cell (centre_points x1 y1 x2 y2) r c
  = Ok (mkPoint (exact_value (float_of (sixteenths x1 x2 c) (-4)))
          (exact_value (float_of (sixteenths y1 y2 r) (-4)))).
Proof.
  intros Hr Hc. unfold centre_points.
  apply in_0_7_cases in Hr, Hc. simpl in Hr, Hc.
  repeat (destruct Hr as [<-|Hr]; [|]); try contradiction;
    repeat (destruct Hc as [<-|Hc]; [|]); try contradiction; reflexivity.
Qed.

Lemma mirror_formula (a b : Q) (k : Z) :
  (a + (inject_Z (7 - k) + (1 # 2)) * (b - a) / 8
   == b - (inject_Z k + (1 # 2)) * (b - a) / 8)%Q.
Proof.
  unfold Z.sub. rewrite inject_Z_plus, inject_Z_opp. field.
Qed.

Lemma formula_inside (a b : Q) (k : Z) :
  in_0_7 k = true -> (0 < b - a)%Q ->
  (a < a + (inject_Z k + (1 # 2)) * (b - a) / 8)%Q
  /\ (a + (inject_Z k + (1 # 2)) * (b - a) / 8 < a + (b - a))%Q.
Proof.
  intros Hk Hw.
  assert (E : forall q : Q, (q * (b - a) / 8 == q * ((1 # 8) * (b - a)))%Q)
    by (intros q; field).
  rewrite E. apply in_0_7_cases in Hk. simpl in Hk.
  repeat (destruct Hk as [<-|Hk]; [unfold inject_Z; split; lra|]).
  contradiction.
Qed.

Lemma is_file_column (c : ascii) :
  is_file c = true -> in_0_7 (ord c - 97) = true.
Proof.
  unfold is_file, in_0_7. intros H. apply andb_true_iff in H as [Hlo Hhi].
  apply Z.leb_le in Hlo. apply Z.leb_le in Hhi.
  apply andb_true_iff. split; [apply Z.leb_le | apply Z.ltb_lt]; lia.
Qed.

Lemma is_rank_row (c : ascii) :
  is_rank c = true ->
  int c = Ok (ord c - 48)%Z /\ in_0_7 (8 - (ord c - 48)) = true.
Proof.
  unfold is_rank, int, is_digit, in_0_7. intros H.
  apply andb_true_iff in H as [Hlo Hhi].
  apply Z.leb_le in Hlo. apply Z.leb_le in Hhi.
  replace ((48 <=? ord c)%Z && (ord c <=? 57)%Z) with true
    by (symmetry; apply andb_true_iff; split; apply Z.leb_le; lia).
  split; [reflexivity|].
  apply andb_true_iff. split; [apply Z.leb_le | apply Z.ltb_lt]; lia.
Qed.

(** The entry of the oriented points at an index pair inside the board. *)
Lemma oriented_cell (x1 y1 x2 y2 : Z) (color : string) (r c : Z) :
  (Z.abs x1 < 2 ^ 48)%Z -> (Z.abs y1 < 2 ^ 48)%Z ->
  (Z.abs x2 < 2 ^ 48)%Z -> (Z.abs y2 < 2 ^ 48)%Z ->
  in_0_7 r = true -> in_0_7 c = true ->
  exists p,
    cell (if color =? "black" then flip (centre_points x1 y1 x2 y2)
          else centre_points x1 y1 x2 y2) r c = Ok p
    /\ (x p == column_x (mkPoint (inject_Z x1) (inject_Z y1))
                 (mkPoint (inject_Z x2) (inject_Z y2)) color c)%Q
    /\ (y p == row_y (mkPoint (inject_Z x1) (inject_Z y1))
                 (mkPoint (inject_Z x2) (inject_Z y2)) color r)%Q
    /\ ((0 < x2 - x1)%Z -> (0 < y2 - y1)%Z ->
        click_inside
          (Capture (inject_Z x1) (inject_Z y1)
             (inject_Z x2 - inject_Z x1)%Q (inject_Z y2 - inject_Z y1)%Q)
          (Click (x p) (y p))).
Proof.
  intros Hx1 Hy1 Hx2 Hy2 Hr Hc. unfold column_x, row_y. cbn [x y].
  assert (Hpos : forall a b : Z, (0 < b - a)%Z ->
             (0 < inject_Z b - inject_Z a)%Q).
  { intros a b H. unfold Qlt, Qminus, Qplus, Qopp, inject_Z.
    cbn [Qnum Qden]. lia. }
  destruct (color =? "black").
  - rewrite cell_of_flip by (reflexivity || assumption).
    rewrite centre_points_cell by now apply in_0_7_mirror.
    destruct (exact_centre x1 x2 (7 - c) Hx1 Hx2 (in_0_7_mirror c Hc))
      as [_ Hx].
    destruct (exact_centre y1 y2 (7 - r) Hy1 Hy2 (in_0_7_mirror r Hr))
      as [_ Hy].
    eexists. split; [reflexivity|]. cbn [x y click_inside].
    split; [now rewrite Hx, mirror_formula|].
    split; [now rewrite Hy, mirror_formula|].
    intros Hw Hh. rewrite Hx, Hy.
    destruct (formula_inside (inject_Z x1) (inject_Z x2) (7 - c)
                (in_0_7_mirror c Hc) (Hpos _ _ Hw)) as [X1 X2].
    destruct (formula_inside (inject_Z y1) (inject_Z y2) (7 - r)
                (in_0_7_mirror r Hr) (Hpos _ _ Hh)) as [Y1 Y2].
    repeat split; assumption.
  - rewrite centre_points_cell by assumption.
    destruct (exact_centre x1 x2 c Hx1 Hx2 Hc) as [_ Hx].
    destruct (exact_centre y1 y2 r Hy1 Hy2 Hr) as [_ Hy].
    eexists. split; [reflexivity|]. cbn [x y click_inside].
    split; [exact Hx|]. split; [exact Hy|].
    intros Hw Hh. rewrite Hx, Hy.
    destruct (formula_inside (inject_Z x1) (inject_Z x2) c Hc (Hpos _ _ Hw))
      as [X1 X2].
    destruct (formula_inside (inject_Z y1) (inject_Z y2) r Hr (Hpos _ _ Hh))
      as [Y1 Y2].
    repeat split; assumption.
Qed.

(** Both clicks of a well-formed move on the oriented points. *)
Lemma oriented_move_clicks (x1 y1 x2 y2 : Z) (color : string)
    (c0 c1 c2 c3 : ascii) (rest : string) :
  (Z.abs x1 < 2 ^ 48)%Z -> (Z.abs y1 < 2 ^ 48)%Z ->
  (Z.abs x2 < 2 ^ 48)%Z -> (Z.abs y2 < 2 ^ 48)%Z ->
  is_file c0 = true -> is_rank c1 = true ->
  is_file c2 = true -> is_rank c3 = true ->
  exists origin destination,
    make_move (if color =? "black" then flip (centre_points x1 y1 x2 y2)
               else centre_points x1 y1 x2 y2) (four c0 c1 c2 c3 rest)
    = Ok [Click (x origin) (y origin); Click (x destination) (y destination)]
    /\ (x origin == column_x (mkPoint (inject_Z x1) (inject_Z y1))
                      (mkPoint (inject_Z x2) (inject_Z y2)) color
                      (ord c0 - 97))%Q
    /\ (y origin == row_y (mkPoint (inject_Z x1) (inject_Z y1))
                      (mkPoint (inject_Z x2) (inject_Z y2)) color
                      (8 - (ord c1 - 48)))%Q
    /\ (x destination == column_x (mkPoint (inject_Z x1) (inject_Z y1))
                           (mkPoint (inject_Z x2) (inject_Z y2)) color
                           (ord c2 - 97))%Q
    /\ (y destination == row_y (mkPoint (inject_Z x1) (inject_Z y1))
                           (mkPoint (inject_Z x2) (inject_Z y2)) color
                           (8 - (ord c3 - 48)))%Q
    /\ ((0 < x2 - x1)%Z -> (0 < y2 - y1)%Z ->
        click_inside
          (Capture (inject_Z x1) (inject_Z y1)
             (inject_Z x2 - inject_Z x1)%Q (inject_Z y2 - inject_Z y1)%Q)
          (Click (x origin) (y origin))
        /\ click_inside
             (Capture (inject_Z x1) (inject_Z y1)
                (inject_Z x2 - inject_Z x1)%Q (inject_Z y2 - inject_Z y1)%Q)
             (Click (x destination) (y destination))).
Proof.
  intros Hx1 Hy1 Hx2 Hy2 F0 R1 F2 R3.
  destruct (is_rank_row c1 R1) as [I1 B1]. destruct (is_rank_row c3 R3) as [I3 B3].
  pose proof (is_file_column c0 F0) as B0.
  pose proof (is_file_column c2 F2) as B2.
  assert (Hidx : move_indices (four c0 c1 c2 c3 rest)
                 = Ok (ord c0 - 97, 8 - (ord c1 - 48),
                       ord c2 - 97, 8 - (ord c3 - 48))%Z)
    by (rewrite move_indices_four, I1, I3; reflexivity).
  destruct (oriented_cell x1 y1 x2 y2 color _ _ Hx1 Hy1 Hx2 Hy2 B1 B0)
    as (origin & Ho & Hox & Hoy & Hoin).
  destruct (oriented_cell x1 y1 x2 y2 color _ _ Hx1 Hy1 Hx2 Hy2 B3 B2)
    as (destination & Hd & Hdx & Hdy & Hdin).
  exists origin, destination.
  rewrite (make_move_cells _ _ _ _ _ _ Hidx), Ho, Hd.
  split; [reflexivity|]. do 4 (split; [assumption|]).
  intros Hw Hh. split; [apply Hoin | apply Hdin]; assumption.
Qed.

End Clicks.


(** ** One pass of the loop of [main] *)

Section Passes.

Context {engine : Type} (stockfish : Stockfish engine).

Lemma calculate_stockfish_prints (eng : engine) (fen : string) :
  snd (calculate_stockfish stockfish eng fen)
  = if fst (is_fen_valid stockfish eng fen) then []
    else [Print "Invalid FEN"].
Proof.
  unfold calculate_stockfish.
  destruct (is_fen_valid stockfish eng fen) as [[|] eng1]; [|reflexivity].
  cbn [fst]. now destruct (get_best_move stockfish _).
Qed.

Lemma calculate_stockfish_rejects (eng : engine) (fen : string) :
  fst (is_fen_valid stockfish eng fen) = false ->
  fst (fst (calculate_stockfish stockfish eng fen)) = None.
Proof.
  unfold calculate_stockfish.
  destruct (is_fen_valid stockfish eng fen) as [[|] eng1];
    [discriminate | reflexivity].
Qed.

(** The pass, once the FEN of the board is known. *)
Lemma loop_pass_fen (upper_left_corner lower_right_corner : Point)
    (color : string) (square_centers : list (list Point)) (eng : engine)
    (fen : string) :
  main_loop_fen color = Ok fen ->
  exists before,
    filter is_mouse before = []
    /\ filter is_invalid_notice before = []
    /\ hd_error before
       = Some (Capture (x upper_left_corner) (y upper_left_corner)
                 (x lower_right_corner - x upper_left_corner)%Q
                 (y lower_right_corner - y upper_left_corner)%Q)
    /\ loop_pass stockfish upper_left_corner lower_right_corner color
         square_centers eng
       = let '(best_move, eng, printed) :=
           calculate_stockfish stockfish eng fen in
         let out := (before ++ printed)%list in
         match best_move with
         | Some best_move =>
             let '(visual, eng) :=
               if color =? "black" then get_board_visual stockfish eng false
               else get_board_visual stockfish eng true in
             let out :=
               (out ++ [Print visual;
                        Print ("Stockfish best move for the current position: "
                               ++ best_move);
                        Print ("Making move..." ++ newline)])%list in
             match make_move square_centers best_move with
             | Raise e => (Raise e, eng, out)
             | Ok clicks =>
                 (Ok tt, eng,
                  (out ++ map Mouse clicks
                   ++ [Print ("---------------------------------------------"
                              ++ newline)])%list)
             end
         | None => (Ok tt, eng, (out ++ [Print "Invalid FEN"])%list)
         end.
Proof.
  unfold main_loop_fen, loop_pass. intros Hfen.
  destruct (color =? "black"); rewrite Hfen;
    eexists; (split; [|split; [|split; [|reflexivity]]]); reflexivity.
Qed.

End Passes.

Lemma main_loop_fen_ok (color : string) :
  exists fen, main_loop_fen color = Ok fen.
Proof.
  unfold main_loop_fen. destruct (color =? "black");
    rewrite board_to_fen_8x8 by reflexivity; eauto.
Qed.

(** X13: a pass in which the engine rejects the FEN, or accepts it and
    has no move, ends normally without any click; ["Invalid FEN"] is
    printed twice when the FEN was rejected and once when there was no
    move. *)
Theorem pass_without_move {engine : Type} (stockfish : Stockfish engine)
    (upper_left_corner lower_right_corner : Point) (color : string)
    (square_centers : list (list Point)) (eng : engine) (fen : string) :
  main_loop_fen color = Ok fen ->
  fst (fst (calculate_stockfish stockfish eng fen)) = None ->
  exists eng' out,
    loop_pass stockfish upper_left_corner lower_right_corner color
      square_centers eng = (Ok tt, eng', out)
    /\ filter is_mouse out = []
    /\ List.length (filter is_invalid_notice out)
       = if fst (is_fen_valid stockfish eng fen) then 1%nat else 2%nat.
Proof.
  intros Hfen Hnone.
  destruct (loop_pass_fen stockfish upper_left_corner lower_right_corner
              color square_centers eng fen Hfen)
    as (before & Hmouse & Hnotice & _ & ->).
  pose proof (calculate_stockfish_prints stockfish eng fen) as Hprinted.
  destruct (calculate_stockfish stockfish eng fen) as [[best eng'] printed].
  cbn [fst snd] in *. subst best printed.
  exists eng'. eexists. split; [reflexivity|].
  rewrite !filter_app, Hmouse, Hnotice.
  destruct (fst (is_fen_valid stockfish eng fen)); split; reflexivity.
Qed.

Lemma pass_without_move_witness :
  main_loop_fen "black"
  = Ok "r3r1k1/pp6/5Bpp/3P4/1n4bP/4P3/3P1PP1/R3KB1R w - - 0 1"
  /\ fst (fst (calculate_stockfish rejecting_engine tt
                 "r3r1k1/pp6/5Bpp/3P4/1n4bP/4P3/3P1PP1/R3KB1R w - - 0 1"))
     = None
  /\ exists eng' out,
       loop_pass rejecting_engine (mkPoint 19 182) (mkPoint 785 948) "black"
         main_square_centers tt = (Ok tt, eng', out)
       /\ filter is_mouse out = []
       /\ List.length (filter is_invalid_notice out)
          = if fst (is_fen_valid rejecting_engine tt
                      "r3r1k1/pp6/5Bpp/3P4/1n4bP/4P3/3P1PP1/R3KB1R w - - 0 1")
            then 1%nat else 2%nat.
Proof.
  split; [reflexivity|]. split; [reflexivity|].
  apply (pass_without_move rejecting_engine (mkPoint 19 182)
           (mkPoint 785 948) "black" main_square_centers tt
           "r3r1k1/pp6/5Bpp/3P4/1n4bP/4P3/3P1PP1/R3KB1R w - - 0 1");
    reflexivity.
Defined.

(** X15: when the engine's move makes [make_move] raise, the pass raises
    the same exception after the screenshot was taken and the move was
    announced, and no click is made. *)
Theorem pass_with_bad_move {engine : Type} (stockfish : Stockfish engine)
    (upper_left_corner lower_right_corner : Point) (color : string)
    (square_centers : list (list Point)) (eng : engine) (fen move : string)
    (e : exn) :
  main_loop_fen color = Ok fen ->
  fst (fst (calculate_stockfish stockfish eng fen)) = Some move ->
  make_move square_centers move = Raise e ->
  exists eng' region out,
    loop_pass stockfish upper_left_corner lower_right_corner color
      square_centers eng = (Raise e, eng', region :: out)
    /\ region = Capture (x upper_left_corner) (y upper_left_corner)
                  (x lower_right_corner - x upper_left_corner)%Q
                  (y lower_right_corner - y upper_left_corner)%Q
    /\ filter is_mouse out = []
    /\ In (Print ("Stockfish best move for the current position: " ++ move))
         out.
Proof.
  intros Hfen Hbest Hmove.
  destruct (loop_pass_fen stockfish upper_left_corner lower_right_corner
              color square_centers eng fen Hfen)
    as (before & Hmouse & _ & Hhead & ->).
  pose proof (calculate_stockfish_prints stockfish eng fen) as Hprinted.
  destruct (calculate_stockfish stockfish eng fen) as [[best eng1] printed].
  cbn [fst snd] in *. subst best. rewrite Hmove.
  destruct before as [|region before]; [discriminate|].
  injection Hhead as ->. cbn [filter is_mouse] in Hmouse.
  assert (Hp : filter is_mouse printed = [])
    by (subst printed; now destruct (fst (is_fen_valid stockfish eng fen))).
  destruct (if color =? "black"
            then get_board_visual stockfish eng1 false
            else get_board_visual stockfish eng1 true) as [visual eng2].
  exists eng2. do 2 eexists.
  split; [cbn [app]; reflexivity|]. split; [reflexivity|].
  split.
  - now rewrite !filter_app, Hmouse, Hp.
  - apply in_or_app. right. right. left. reflexivity.
Qed.

Lemma pass_with_bad_move_witness :
  main_loop_fen "black"
  = Ok "r3r1k1/pp6/5Bpp/3P4/1n4bP/4P3/3P1PP1/R3KB1R w - - 0 1"
  /\ fst (fst (calculate_stockfish (fixed_engine (Some "O-O")) tt
                 "r3r1k1/pp6/5Bpp/3P4/1n4bP/4P3/3P1PP1/R3KB1R w - - 0 1"))
     = Some "O-O"
  /\ make_move main_square_centers "O-O" = Raise ValueError
  /\ exists eng' region out,
       loop_pass (fixed_engine (Some "O-O")) (mkPoint 19 182)
         (mkPoint 785 948) "black" main_square_centers tt
       = (Raise ValueError, eng', region :: out)
       /\ region = Capture (x (mkPoint 19 182)) (y (mkPoint 19 182))
                     (x (mkPoint 785 948) - x (mkPoint 19 182))%Q
                     (y (mkPoint 785 948) - y (mkPoint 19 182))%Q
       /\ filter is_mouse out = []
       /\ In (Print ("Stockfish best move for the current position: "
                     ++ "O-O")) out.
Proof.
  do 3 (split; [reflexivity|]).
  apply (pass_with_bad_move (fixed_engine (Some "O-O")) (mkPoint 19 182)
           (mkPoint 785 948) "black" main_square_centers tt
           "r3r1k1/pp6/5Bpp/3P4/1n4bP/4P3/3P1PP1/R3KB1R w - - 0 1" "O-O"
           ValueError); reflexivity.
Defined.

(** X10: for corners with integer coordinates below [2^48] in magnitude
    and a move with files in ['a'..'h'] and ranks in ['1'..'8'], on the
    grid [main] builds, [make_move] clicks the origin at the centre of
    column [file - 'a'] and row [8 - rank], counted from the left and the
    top for white and from the right and the bottom for black, and then
    the destination in the same way. *)
Theorem click_positions (x1 y1 x2 y2 : Z) (color : string)
    (c0 c1 c2 c3 : ascii) (rest : string) :
  (Z.abs x1 < 2 ^ 48)%Z -> (Z.abs y1 < 2 ^ 48)%Z ->
  (Z.abs x2 < 2 ^ 48)%Z -> (Z.abs y2 < 2 ^ 48)%Z ->
  is_file c0 = true -> is_rank c1 = true ->
  is_file c2 = true -> is_rank c3 = true ->
  exists grid pts origin destination,
    oriented_centers (mkNumPoint (Int x1) (Int y1))
      (mkNumPoint (Int x2) (Int y2)) color = Ok grid
    /\ points_of grid = Some pts
    /\ make_move pts (four c0 c1 c2 c3 rest)
       = Ok [Click (x origin) (y origin);
             Click (x destination) (y destination)]
    /\ (x origin == column_x (mkPoint (inject_Z x1) (inject_Z y1))
                      (mkPoint (inject_Z x2) (inject_Z y2)) color
                      (ord c0 - ord "a"))%Q
    /\ (y origin == row_y (mkPoint (inject_Z x1) (inject_Z y1))
                      (mkPoint (inject_Z x2) (inject_Z y2)) color
                      (8 - (ord c1 - ord "0")))%Q
    /\ (x destination == column_x (mkPoint (inject_Z x1) (inject_Z y1))
                           (mkPoint (inject_Z x2) (inject_Z y2)) color
                           (ord c2 - ord "a"))%Q
    /\ (y destination == row_y (mkPoint (inject_Z x1) (inject_Z y1))
                           (mkPoint (inject_Z x2) (inject_Z y2)) color
                           (8 - (ord c3 - ord "0")))%Q.
Proof.
  intros Hx1 Hy1 Hx2 Hy2 F0 R1 F2 R3.
  destruct (oriented_points x1 y1 x2 y2 color Hx1 Hy1 Hx2 Hy2)
    as (grid & Hgrid & Hpts).
  destruct (oriented_move_clicks x1 y1 x2 y2 color c0 c1 c2 c3 rest
              Hx1 Hy1 Hx2 Hy2 F0 R1 F2 R3)
    as (origin & destination & Hmove & Hox & Hoy & Hdx & Hdy & _).
  exists grid. eexists. exists origin, destination.
  split; [exact Hgrid|]. split; [exact Hpts|].
  split; [exact Hmove|]. repeat split; assumption.
Qed.

Lemma click_positions_witness :
  (Z.abs 19 < 2 ^ 48)%Z /\ (Z.abs 182 < 2 ^ 48)%Z
  /\ (Z.abs 785 < 2 ^ 48)%Z /\ (Z.abs 948 < 2 ^ 48)%Z
  /\ is_file "e" = true /\ is_rank "7" = true
  /\ is_file "e" = true /\ is_rank "5" = true
  /\ exists grid pts origin destination,
       oriented_centers (mkNumPoint (Int 19) (Int 182))
         (mkNumPoint (Int 785) (Int 948)) "black" = Ok grid
       /\ points_of grid = Some pts
       /\ make_move pts (four "e" "7" "e" "5" "")
          = Ok [Click (x origin) (y origin);
                Click (x destination) (y destination)]
       /\ (x origin == column_x (mkPoint (inject_Z 19) (inject_Z 182))
                         (mkPoint (inject_Z 785) (inject_Z 948)) "black"
                         (ord "e" - ord "a"))%Q
       /\ (y origin == row_y (mkPoint (inject_Z 19) (inject_Z 182))
                         (mkPoint (inject_Z 785) (inject_Z 948)) "black"
                         (8 - (ord "7" - ord "0")))%Q
       /\ (x destination
           == column_x (mkPoint (inject_Z 19) (inject_Z 182))
                (mkPoint (inject_Z 785) (inject_Z 948)) "black"
                (ord "e" - ord "a"))%Q
       /\ (y destination
           == row_y (mkPoint (inject_Z 19) (inject_Z 182))
                (mkPoint (inject_Z 785) (inject_Z 948)) "black"
                (8 - (ord "5" - ord "0")))%Q.
Proof.
  do 8 (split; [reflexivity|]).
  apply (click_positions 19 182 785 948 "black" "e" "7" "e" "5" "");
    reflexivity.
Defined.

(** X11: for corners with integer coordinates below [2^48] in magnitude
    spanning a positive width and height, both clicks of a move with files
    in ['a'..'h'] and ranks in ['1'..'8'] fall strictly inside the region
    [(x1, y1, x2 - x1, y2 - y1)] that [make_screenshot] captures for the
    same corners, for either side. *)
Theorem clicks_inside_capture (x1 y1 x2 y2 : Z) (color filename : string)
    (c0 c1 c2 c3 : ascii) (rest : string) :
  (Z.abs x1 < 2 ^ 48)%Z -> (Z.abs y1 < 2 ^ 48)%Z ->
  (Z.abs x2 < 2 ^ 48)%Z -> (Z.abs y2 < 2 ^ 48)%Z ->
  (0 < x2 - x1)%Z -> (0 < y2 - y1)%Z ->
  is_file c0 = true -> is_rank c1 = true ->
  is_file c2 = true -> is_rank c3 = true ->
  exists grid pts first second,
    oriented_centers (mkNumPoint (Int x1) (Int y1))
      (mkNumPoint (Int x2) (Int y2)) color = Ok grid
    /\ points_of grid = Some pts
    /\ make_screenshot (mkPoint (inject_Z x1) (inject_Z y1))
         (mkPoint (inject_Z x2) (inject_Z y2)) filename
       = [Capture (inject_Z x1) (inject_Z y1)
            (inject_Z x2 - inject_Z x1)%Q (inject_Z y2 - inject_Z y1)%Q;
          Save filename]
    /\ make_move pts (four c0 c1 c2 c3 rest) = Ok [first; second]
    /\ click_inside
         (Capture (inject_Z x1) (inject_Z y1)
            (inject_Z x2 - inject_Z x1)%Q (inject_Z y2 - inject_Z y1)%Q)
         first
    /\ click_inside
         (Capture (inject_Z x1) (inject_Z y1)
            (inject_Z x2 - inject_Z x1)%Q (inject_Z y2 - inject_Z y1)%Q)
         second.
Proof.
  intros Hx1 Hy1 Hx2 Hy2 Hw Hh F0 R1 F2 R3.
  destruct (oriented_points x1 y1 x2 y2 color Hx1 Hy1 Hx2 Hy2)
    as (grid & Hgrid & Hpts).
  destruct (oriented_move_clicks x1 y1 x2 y2 color c0 c1 c2 c3 rest
              Hx1 Hy1 Hx2 Hy2 F0 R1 F2 R3)
    as (origin & destination & Hmove & _ & _ & _ & _ & Hin).
  destruct (Hin Hw Hh) as [Hin1 Hin2].
  exists grid. eexists. do 2 eexists.
  split; [exact Hgrid|]. split; [exact Hpts|].
  split; [reflexivity|]. split; [exact Hmove|]. split; assumption.
Qed.

Lemma clicks_inside_capture_witness :
  (Z.abs 19 < 2 ^ 48)%Z /\ (Z.abs 182 < 2 ^ 48)%Z
  /\ (Z.abs 785 < 2 ^ 48)%Z /\ (Z.abs 948 < 2 ^ 48)%Z
  /\ (0 < 785 - 19)%Z /\ (0 < 948 - 182)%Z
  /\ is_file "g" = true /\ is_rank "8" = true
  /\ is_file "f" = true /\ is_rank "6" = true
  /\ exists grid pts first second,
       oriented_centers (mkNumPoint (Int 19) (Int 182))
         (mkNumPoint (Int 785) (Int 948)) "black" = Ok grid
       /\ points_of grid = Some pts
       /\ make_screenshot (mkPoint (inject_Z 19) (inject_Z 182))
            (mkPoint (inject_Z 785) (inject_Z 948)) "screenshot.png"
          = [Capture (inject_Z 19) (inject_Z 182)
               (inject_Z 785 - inject_Z 19)%Q (inject_Z 948 - inject_Z 182)%Q;
             Save "screenshot.png"]
       /\ make_move pts (four "g" "8" "f" "6" "") = Ok [first; second]
       /\ click_inside
            (Capture (inject_Z 19) (inject_Z 182)
               (inject_Z 785 - inject_Z 19)%Q (inject_Z 948 - inject_Z 182)%Q)
            first
       /\ click_inside
            (Capture (inject_Z 19) (inject_Z 182)
               (inject_Z 785 - inject_Z 19)%Q (inject_Z 948 - inject_Z 182)%Q)
            second.
Proof.
  do 10 (split; [reflexivity|]).
  apply (clicks_inside_capture 19 182 785 948 "black" "screenshot.png"
           "g" "8" "f" "6" ""); reflexivity.
Defined.

(** X14: for corners with integer coordinates below [2^48] in magnitude
    spanning a positive width and height, a pass in which the engine
    answers with a move whose files are in ['a'..'h'] and whose ranks are
    in ['1'..'8'] ends normally; its first effect is the capture of the
    region [(x1, y1, x2 - x1, y2 - y1)], its only mouse effects are two
    clicks, and both fall strictly inside that region. *)
Theorem pass_with_move {engine : Type} (stockfish : Stockfish engine)
    (x1 y1 x2 y2 : Z) (color : string) (eng : engine) (fen : string)
    (c0 c1 c2 c3 : ascii) (rest : string) :
  (Z.abs x1 < 2 ^ 48)%Z -> (Z.abs y1 < 2 ^ 48)%Z ->
  (Z.abs x2 < 2 ^ 48)%Z -> (Z.abs y2 < 2 ^ 48)%Z ->
  (0 < x2 - x1)%Z -> (0 < y2 - y1)%Z ->
  main_loop_fen color = Ok fen ->
  fst (fst (calculate_stockfish stockfish eng fen))
  = Some (four c0 c1 c2 c3 rest) ->
  is_file c0 = true -> is_rank c1 = true ->
  is_file c2 = true -> is_rank c3 = true ->
  exists grid pts eng' out first second,
    oriented_centers (mkNumPoint (Int x1) (Int y1))
      (mkNumPoint (Int x2) (Int y2)) color = Ok grid
    /\ points_of grid = Some pts
    /\ loop_pass stockfish (mkPoint (inject_Z x1) (inject_Z y1))
         (mkPoint (inject_Z x2) (inject_Z y2)) color pts eng
       = (Ok tt, eng',
          Capture (inject_Z x1) (inject_Z y1)
            (inject_Z x2 - inject_Z x1)%Q (inject_Z y2 - inject_Z y1)%Q
          :: out)
    /\ filter is_mouse out = [Mouse first; Mouse second]
    /\ click_inside
         (Capture (inject_Z x1) (inject_Z y1)
            (inject_Z x2 - inject_Z x1)%Q (inject_Z y2 - inject_Z y1)%Q)
         first
    /\ click_inside
         (Capture (inject_Z x1) (inject_Z y1)
            (inject_Z x2 - inject_Z x1)%Q (inject_Z y2 - inject_Z y1)%Q)
         second.
Proof.
  intros Hx1 Hy1 Hx2 Hy2 Hw Hh Hfen Hbest F0 R1 F2 R3.
  destruct (oriented_points x1 y1 x2 y2 color Hx1 Hy1 Hx2 Hy2)
    as (grid & Hgrid & Hpts).
  destruct (oriented_move_clicks x1 y1 x2 y2 color c0 c1 c2 c3 rest
              Hx1 Hy1 Hx2 Hy2 F0 R1 F2 R3)
    as (origin & destination & Hmove & _ & _ & _ & _ & Hin).
  destruct (Hin Hw Hh) as [Hin1 Hin2].
  exists grid. eexists.
  destruct (loop_pass_fen stockfish (mkPoint (inject_Z x1) (inject_Z y1))
              (mkPoint (inject_Z x2) (inject_Z y2)) color
              (if color =? "black" then flip (centre_points x1 y1 x2 y2)
               else centre_points x1 y1 x2 y2)
              eng fen Hfen)
    as (before & Hmouse & _ & Hhead & ->).
  pose proof (calculate_stockfish_prints stockfish eng fen) as Hprinted.
  destruct (calculate_stockfish stockfish eng fen) as [[best eng1] printed].
  cbn [fst snd] in *. subst best. rewrite Hmove.
  destruct before as [|region before]; [discriminate|].
  cbn [x y] in Hhead. injection Hhead as ->.
  cbn [filter is_mouse] in Hmouse.
  assert (Hp : filter is_mouse printed = [])
    by (subst printed; now destruct (fst (is_fen_valid stockfish eng fen))).
  destruct (if color =? "black"
            then get_board_visual stockfish eng1 false
            else get_board_visual stockfish eng1 true) as [visual eng2].
  exists eng2. eexists.
  exists (Click (x origin) (y origin)),
    (Click (x destination) (y destination)).
  split; [exact Hgrid|]. split; [exact Hpts|].
  split; [cbn [app]; reflexivity|].
  rewrite !filter_app, Hmouse, Hp.
  split; [reflexivity|]. split; assumption.
Qed.

Lemma pass_with_move_witness :
  (Z.abs 19 < 2 ^ 48)%Z /\ (Z.abs 182 < 2 ^ 48)%Z
  /\ (Z.abs 785 < 2 ^ 48)%Z /\ (Z.abs 948 < 2 ^ 48)%Z
  /\ (0 < 785 - 19)%Z /\ (0 < 948 - 182)%Z
  /\ main_loop_fen "black"
     = Ok "r3r1k1/pp6/5Bpp/3P4/1n4bP/4P3/3P1PP1/R3KB1R w - - 0 1"
  /\ fst (fst (calculate_stockfish (fixed_engine (Some "d5d6")) tt
                 "r3r1k1/pp6/5Bpp/3P4/1n4bP/4P3/3P1PP1/R3KB1R w - - 0 1"))
     = Some (four "d" "5" "d" "6" "")
  /\ is_file "d" = true /\ is_rank "5" = true
  /\ is_file "d" = true /\ is_rank "6" = true
  /\ exists grid pts eng' out first second,
       oriented_centers (mkNumPoint (Int 19) (Int 182))
         (mkNumPoint (Int 785) (Int 948)) "black" = Ok grid
       /\ points_of grid = Some pts
       /\ loop_pass (fixed_engine (Some "d5d6"))
            (mkPoint (inject_Z 19) (inject_Z 182))
            (mkPoint (inject_Z 785) (inject_Z 948)) "black" pts tt
          = (Ok tt, eng',
             Capture (inject_Z 19) (inject_Z 182)
               (inject_Z 785 - inject_Z 19)%Q (inject_Z 948 - inject_Z 182)%Q
             :: out)
       /\ filter is_mouse out = [Mouse first; Mouse second]
       /\ click_inside
            (Capture (inject_Z 19) (inject_Z 182)
               (inject_Z 785 - inject_Z 19)%Q (inject_Z 948 - inject_Z 182)%Q)
            first
       /\ click_inside
            (Capture (inject_Z 19) (inject_Z 182)
               (inject_Z 785 - inject_Z 19)%Q (inject_Z 948 - inject_Z 182)%Q)
            second.
Proof.
  do 12 (split; [reflexivity|]).
  apply (pass_with_move (fixed_engine (Some "d5d6")) 19 182 785 948 "black"
           tt "r3r1k1/pp6/5Bpp/3P4/1n4bP/4P3/3P1PP1/R3KB1R w - - 0 1"
           "d" "5" "d" "6" ""); reflexivity.
Defined.

(** X16: for corners with integer coordinates below [2^48] in magnitude,
    the grid of [calculate_centers] reversed in both axes, as [main] does
    for black, is the grid [calculate_centers] returns with the two
    corners exchanged. *)
Theorem flip_is_swapped_corners (x1 y1 x2 y2 : Z) :
  (Z.abs x1 < 2 ^ 48)%Z -> (Z.abs y1 < 2 ^ 48)%Z ->
  (Z.abs x2 < 2 ^ 48)%Z -> (Z.abs y2 < 2 ^ 48)%Z ->
  exists grid grid',
    calculate_centers (mkNumPoint (Int x1) (Int y1))
      (mkNumPoint (Int x2) (Int y2)) = Ok grid
    /\ calculate_centers (mkNumPoint (Int x2) (Int y2))
         (mkNumPoint (Int x1) (Int y1)) = Ok grid'
    /\ flip grid = grid'.
Proof.
  intros Hx1 Hy1 Hx2 Hy2.
  do 2 eexists.
  split; [apply calculate_centers_exact; assumption|].
  split; [apply calculate_centers_exact; assumption|].
  rewrite (flip_lines
             (fun col row =>
                mkNumPoint (Float (float_of (sixteenths x1 x2 col) (-4)))
                  (Float (float_of (sixteenths y1 y2 row) (-4))))).
  assert (E : forall a b k, sixteenths a b (7 - k) = sixteenths b a k)
    by (intros a b k; unfold sixteenths; lia).
  cbn [rev app map].
  rewrite <- !(E x2 x1), <- !(E y2 y1). reflexivity.
Qed.

Lemma flip_is_swapped_corners_witness :
  (Z.abs 19 < 2 ^ 48)%Z /\ (Z.abs 182 < 2 ^ 48)%Z
  /\ (Z.abs 785 < 2 ^ 48)%Z /\ (Z.abs 948 < 2 ^ 48)%Z
  /\ exists grid grid',
       calculate_centers (mkNumPoint (Int 19) (Int 182))
         (mkNumPoint (Int 785) (Int 948)) = Ok grid
       /\ calculate_centers (mkNumPoint (Int 785) (Int 948))
            (mkNumPoint (Int 19) (Int 182)) = Ok grid'
       /\ flip grid = grid'.
Proof.
  do 4 (split; [reflexivity|]).
  apply (flip_is_swapped_corners 19 182 785 948); reflexivity.
Defined.

(** On the program's corners the points [main] hands to [make_move] are,
    as rationals, those of [main_square_centers]. *)
Lemma main_square_centers_computed :
  exists grid pts,
    oriented_centers (mkNumPoint (Int 19) (Int 182))
      (mkNumPoint (Int 785) (Int 948)) "black" = Ok grid
    /\ points_of grid = Some pts
    /\ same_points pts main_square_centers = true.
Proof.
  do 2 eexists. split; [vm_compute; reflexivity|].
  split; [vm_compute; reflexivity|]. vm_compute. reflexivity.
Qed.
